(** * MMElemental: a shallow embedding of the molecule interchange layer

    The development follows the Python sources of [mmelemental]:

    - [models/util/input.py]                 (module [Input])
    - [models/molecule/mm_molecule.py]       (modules [Schema], [MMMolecule])
    - [models/molecule/rdkit_molecule.py]    (modules [RDKitModel], [RDKitMol])
    - [components/trans/rdkit_component.py]  (module [RDKitComponent])
    - [components/parmed_component.py]       (modules [ParmedModel], [ParmedComponent])
    - [components/io/molreader_component.py] (modules [Reader], [MolReader])

    The toolkits themselves (RDKit, ParmEd, qcelemental) and the operating
    system stay outside: their objects are modelled as the data the sources
    store in them and read back, their parsers and serializers are members
    of type classes.

    Python values are modelled by records and inductive types, exceptions by
    an error monad, mutable state (the file system, class attributes, the
    standard output) by explicit state passing.  The first part of the file
    holds the embedding, the second part the properties. *)

From Stdlib Require Import ZArith QArith.
From Stdlib Require Ascii.
From stdpp Require Import gmap strings list fin_maps.

Set Default Proof Using "Type".

(* ===================================================================== *)
(** * Part I: the embedding                                               *)
(* ===================================================================== *)

(** ** Python exceptions and results *)

Module Py.

(** The exception classes the sources raise or catch. *)
Inductive exn_class : Type :=
| Exception
| TypeError
| IndexError
| ValueError
| NotImplementedError
| NameError
| UnboundLocalError
| ImportError
| ModuleNotFoundError
| AssertionError
| FileNotFoundError
| AttributeError
| ValidationError.

#[global] Instance exn_class_eq_dec : EqDecision exn_class.
Proof. solve_decision. Defined.

Record exn : Type := Exn { exn_cls : exn_class; exn_msg : string }.

#[global] Instance exn_eq_dec : EqDecision exn.
Proof. solve_decision. Defined.

(** [issubclass c ImportError]: the only proper subclass relation the
    sources depend on is [ModuleNotFoundError <: ImportError]. *)
Definition is_ImportError (e : exn) : bool :=
  match exn_cls e with
  | ImportError | ModuleNotFoundError => true
  | _ => false
  end.

Inductive result (A : Type) : Type :=
| Ok (a : A)
| Raise (e : exn).
Arguments Ok {A} a.
Arguments Raise {A} e.

Definition bind {A B} (r : result A) (k : A → result B) : result B :=
  match r with
  | Ok a => k a
  | Raise e => Raise e
  end.

Definition raised {A} (r : result A) : Prop :=
  match r with Ok _ => False | Raise _ => True end.

(** [for x in xs: body], threading an accumulator and stopping at the
    first exception. *)
Fixpoint for_each {A S} (body : S → A → result S) (xs : list A) (s : S)
  : result S :=
  match xs with
  | [] => Ok s
  | x :: xs' => bind (body s x) (for_each body xs')
  end.

(** [enumerate(xs, start)] *)
Fixpoint enumerate_from {A} (start : nat) (xs : list A) : list (nat * A) :=
  match xs with
  | [] => []
  | x :: xs' => (start, x) :: enumerate_from (S start) xs'
  end.

(** [enumerate(xs)] *)
Definition enumerate {A} (xs : list A) : list (nat * A) := enumerate_from 0 xs.

(** [xs[i]] on a list that may be [None]: [TypeError] on [None],
    [IndexError] out of range. *)
Definition subscript {A} (what : string) (xs : option (list A)) (i : nat)
  : result A :=
  match xs with
  | None => Raise (Exn TypeError "'NoneType' object is not subscriptable")
  | Some l =>
      match l !! i with
      | Some x => Ok x
      | None => Raise (Exn IndexError (what +:+ " index out of range"))
      end
  end.

(** Truth value of a [str] or of an optional object. *)
Definition truthy_str (s : string) : bool :=
  match s with EmptyString => false | _ => true end.

Definition truthy_opt {A} (o : option A) : bool :=
  match o with Some _ => true | None => false end.

End Py.

Import Py.

(** The error monad, with stdpp's notation [x ← r; k]. *)
#[global] Instance result_ret : MRet result := @Ok.
#[global] Instance result_bind : MBind result := λ A B k r, Py.bind r k.
#[global] Instance result_fmap : FMap result :=
  λ A B f r, Py.bind r (λ a, Ok (f a)).

(** ** [models/util/input.py] *)

Module Input.

(** What the operating system provides to [FileInput]:
    [os.path.abspath] and [pathlib.Path(p).suffix]. *)
Class OS : Type := {
  abspath : string → string;
  suffix : string → string;
}.

(** class FileInput(Base): path: str *)
Record FileInput : Type := { path : string }.

#[global] Instance FileInput_eq_dec : EqDecision FileInput.
Proof. solve_decision. Defined.

(** The mutable state a [FileInput] method can observe or change: the
    regular files of the file system (absolute path to content) and the
    class attribute [FileInput._content].  The attribute is declared in the
    class body ([_content: List = []]); it is not a model field, so every
    instance reaches the one list object of the class. *)
Record World : Type := {
  files : gmap string string;
  _content : list string;
}.

Section methods.
Context `{OS}.

(** @property abs_path *)
Definition abs_path (self : FileInput) : string := abspath (path self).

(** @property ext *)
Definition ext (self : FileInput) : string := suffix (path self).

(** def __enter__(self): return self *)
Definition __enter__ (self : FileInput) : FileInput := self.

(** def read(self) -> str:
        with open(self.abs_path, 'r') as fp:
            self._content.append(fp.read())
            return self._content[0] *)
Definition read (self : FileInput) (w : World) : result string * World :=
  match files w !! abs_path self with
  | None =>
      (Raise (Exn FileNotFoundError (abs_path self)), w)
  | Some text =>
      let w' := {| files := files w; _content := _content w ++ [text] |} in
      match _content w' !! 0%nat with
      | Some c => (Ok c, w')
      | None => (Raise (Exn IndexError "list index out of range"), w')
      end
  end.

(** def remove(self):
        if os.path.isfile(self.abs_path):
            os.remove(self.abs_path) *)
Definition remove (self : FileInput) (w : World) : World :=
  if decide (is_Some (files w !! abs_path self))
  then {| files := delete (abs_path self) (files w); _content := _content w |}
  else w.

(** The traceback argument of [__exit__]: [None] when the block finished
    normally, a traceback object (always true) otherwise. *)
Inductive traceback : Type := Traceback.

(** def __exit__(self, type, value, tb):
        if not tb:
            self.remove()
        else:
            raise Exception *)
Definition __exit__ (self : FileInput) (tb : option traceback) (w : World)
  : result unit * World :=
  if negb (truthy_opt tb)
  then (Ok (), remove self w)
  else (Raise (Exn Exception EmptyString), w).

(** [with self as f: body(f)].  Python calls [__exit__] with the pending
    exception's traceback; an exception raised by [__exit__] replaces the
    pending one. *)
Definition with_block {A} (self : FileInput)
    (body : FileInput → World → result A * World) (w : World)
  : result A * World :=
  let f := __enter__ self in
  match body f w with
  | (Ok a, w1) =>
      match __exit__ self None w1 with
      | (Ok _, w2) => (Ok a, w2)
      | (Raise e, w2) => (Raise e, w2)
      end
  | (Raise e, w1) =>
      match __exit__ self (Some Traceback) w1 with
      | (Ok _, w2) => (Raise e, w2)
      | (Raise e', w2) => (Raise e', w2)
      end
  end.

(** What a process may do between two calls of [read]: read through any
    instance, or change the file system. *)
Inductive action : Type :=
| DoRead (self : FileInput)
| DoWrite (p : string) (text : string)
| DoRemove (self : FileInput).

(** Runs the actions in order and collects what each [read] returned. *)
Fixpoint run (acts : list action) (w : World) : list (result string) * World :=
  match acts with
  | [] => ([], w)
  | DoRead self :: acts' =>
      let '(r, w1) := read self w in
      let '(rs, w2) := run acts' w1 in
      (r :: rs, w2)
  | DoWrite p text :: acts' =>
      run acts' {| files := <[p := text]> (files w); _content := _content w |}
  | DoRemove self :: acts' =>
      run acts' (remove self w)
  end.

(** The values returned by the successful reads. *)
Definition successes (rs : list (result string)) : list string :=
  omap (λ r, match r with Ok c => Some c | Raise _ => None end) rs.

End methods.

(** A concrete operating system for the examples: paths are already
    absolute, the suffix is not used. *)
Definition plain_os : OS := {| abspath := id; suffix := λ _, EmptyString |}.

Definition world0 : World :=
  {| files := {[ "/a.txt" := "alpha"; "/b.txt" := "beta" ]}; _content := [] |}.

End Input.

(** ** The canonical model: [models/molecule/mm_molecule.py] (data) *)

Module Schema.

Definition coords : Type := (Q * Q * Q)%type.

(** [ChemCode]: a notation string and its kind. *)
Record ChemCode : Type := { code : string; code_type : string }.

(** class Molecule(qcelemental.models.Molecule).  The fields the adapters
    read or fill.  [symbols] and [geometry] are what every Molecule is
    built from; the other per-atom fields may be [None].  A bond is
    [(atom_i, atom_j, bond_order)].  [orient] and [validate] record the
    flags the constructor was called with: what qcelemental does with them
    lies outside the repository. *)
Record Molecule : Type := {
  symbols : list string;
  geometry : list coords;
  residues : option (list (string * Z));
  connectivity : option (list (nat * nat * nat));
  names : option (list string);
  masses : option (list Q);
  identifiers : option (string * ChemCode);
  orient : option bool;
  validate : option bool;
}.

(** The keyword arguments of the constructor call, [input_dict]. *)
Record input_dict : Type := {
  d_symbols : list string;
  d_geometry : list coords;
  d_residues : option (list (string * Z));
  d_connectivity : option (list (nat * nat * nat));
  d_masses : option (list Q);
  d_names : option (list string);
}.

(** [args['kwargs']]: caller overrides for keys of [input_dict]. *)
Record kwargs : Type := {
  kw_symbols : option (list string);
  kw_geometry : option (list coords);
  kw_residues : option (option (list (string * Z)));
  kw_connectivity : option (option (list (nat * nat * nat)));
  kw_masses : option (option (list Q));
  kw_names : option (option (list string));
}.

(** input_dict.update(kwargs) *)
Definition update (d : input_dict) (k : kwargs) : input_dict :=
  {| d_symbols := default (d_symbols d) (kw_symbols k);
     d_geometry := default (d_geometry d) (kw_geometry k);
     d_residues := default (d_residues d) (kw_residues k);
     d_connectivity := default (d_connectivity d) (kw_connectivity k);
     d_masses := default (d_masses d) (kw_masses k);
     d_names := default (d_names d) (kw_names k) |}.

(** Molecule(orient=orient, validate=validate, identifiers=..., **input_dict).
    The record holds the arguments as they are passed; the checks and the
    rounding of the qcelemental constructor are not part of the sources. *)
Definition Molecule_init (o v : option bool)
    (ids : option (string * ChemCode)) (d : input_dict) : Molecule :=
  {| symbols := d_symbols d; geometry := d_geometry d;
     residues := d_residues d; connectivity := d_connectivity d;
     names := d_names d; masses := d_masses d;
     identifiers := ids; orient := o; validate := v |}.

(** [inputs.args]: a dict read with [.get]. *)
Record reader_args : Type := {
  arg_orient : option bool;
  arg_validate : option bool;
  arg_kwargs : option kwargs;
}.

(** Connectivity read as an unordered set of bonds whose two atoms may be
    swapped: each bond is put smaller index first. *)
Definition norm_bond (b : nat * nat * nat) : nat * nat * nat :=
  let '(i, j, o) := b in (i `min` j, i `max` j, o).

Definition bond_set (bs : list (nat * nat * nat)) : gset (nat * nat * nat) :=
  list_to_set (norm_bond <$> bs).

Definition same_bonds (c1 c2 : option (list (nat * nat * nat))) : Prop :=
  bond_set (default [] c1) = bond_set (default [] c2).

#[global] Instance same_bonds_dec c1 c2 : Decision (same_bonds c1 c2).
Proof. unfold same_bonds. apply _. Defined.

End Schema.

(** ** [models/molecule/rdkit_molecule.py] and the RDKit objects it wraps *)

Module RDKitModel.
Import Schema Input.

(** [Chem.BondType], in the order of its values 0 to 21. *)
Inductive BondType : Type :=
| UNSPECIFIED | SINGLE | DOUBLE | TRIPLE | QUADRUPLE | QUINTUPLE | HEXTUPLE
| ONEANDAHALF | TWOANDAHALF | THREEANDAHALF | FOURANDAHALF | FIVEANDAHALF
| AROMATIC | IONIC | HYDROGEN | THREECENTER | DATIVEONE | DATIVE | DATIVEL
| DATIVER | OTHER | ZERO.

#[global] Instance BondType_eq_dec : EqDecision BondType.
Proof. solve_decision. Defined.

(** class Bond: orders = list(Chem.BondType.values.values())
    "RDKit-based bond order: {0: unspecified, 1: single, etc., up to 21}" *)
Definition orders : list BondType :=
  [ UNSPECIFIED; SINGLE; DOUBLE; TRIPLE; QUADRUPLE; QUINTUPLE; HEXTUPLE;
    ONEANDAHALF; TWOANDAHALF; THREEANDAHALF; FOURANDAHALF; FIVEANDAHALF;
    AROMATIC; IONIC; HYDROGEN; THREECENTER; DATIVEONE; DATIVE; DATIVEL;
    DATIVER; OTHER; ZERO ].

(** Bond.orders[n] *)
Definition orders_getitem (n : nat) : result BondType :=
  match orders !! n with
  | Some t => Ok t
  | None => Raise (Exn IndexError "list index out of range")
  end.

(** Bond.orders.index(t) *)
Definition orders_index (t : BondType) : result nat :=
  match list_find (λ t', t' = t) orders with
  | Some (n, _) => Ok n
  | None => Raise (Exn ValueError "value is not in list")
  end.

(** Chem.AtomPDBResidueInfo *)
Record AtomPDBResidueInfo : Type := {
  ResidueName : string;
  Name : string;
  ResidueNumber : Z;
  Occupancy : Q;
  TempFactor : Q;
}.

(** Chem.Atom: its symbol and its monomer info, if one was set. *)
Record Atom : Type := {
  Symbol : string;
  MonomerInfo : option AtomPDBResidueInfo;
}.

(** Chem.Bond *)
Record RBond : Type := {
  BeginAtomIdx : nat;
  EndAtomIdx : nat;
  GetBondType : BondType;
}.

(** Chem.Conformer: the positions of the atoms. *)
Abbreviation Conformer := (list coords) (only parsing).

(** Chem.Mol: atoms, bonds and conformers, each in index order.  The
    methods below store their arguments; the argument checks RDKit makes
    on its side are not modelled. *)
Record Mol : Type := {
  Atoms : list Atom;
  Bonds : list RBond;
  Conformers : list Conformer;
}.

(** Chem.Mol() *)
Definition Mol_empty : Mol := {| Atoms := []; Bonds := []; Conformers := [] |}.

(** erdkmol.AddAtom(atom) *)
Definition AddAtom (m : Mol) (a : Atom) : Mol :=
  {| Atoms := Atoms m ++ [a]; Bonds := Bonds m; Conformers := Conformers m |}.

(** erdkmol.AddBond(i, j, order) *)
Definition AddBond (m : Mol) (i j : nat) (t : BondType) : Mol :=
  {| Atoms := Atoms m;
     Bonds := Bonds m ++ [{| BeginAtomIdx := i; EndAtomIdx := j; GetBondType := t |}];
     Conformers := Conformers m |}.

(** Chem.Conformer(n): [n] positions at the origin. *)
Definition Conformer_new (n : nat) : Conformer := replicate n (0%Q, 0%Q, 0%Q).

(** conf.SetAtomPosition(i, coords) *)
Definition SetAtomPosition (c : Conformer) (i : nat) (xyz : coords) : Conformer :=
  <[i := xyz]> c.

(** mol.AddConformer(conf) *)
Definition AddConformer (m : Mol) (c : Conformer) : Mol :=
  {| Atoms := Atoms m; Bonds := Bonds m; Conformers := Conformers m ++ [c] |}.

(** mol.GetConformer(0).GetPositions() *)
Definition GetConformer0 (m : Mol) : result Conformer :=
  match Conformers m !! 0%nat with
  | Some c => Ok c
  | None => Raise (Exn ValueError "Bad Conformer Id")
  end.

(** class RDKitMolecule(ToolkitMolecule): mol, dtype = 'rdkit' *)
Record RDKitMolecule : Type := { mol : Mol; dtype : string }.

(** RDKitMolecule(mol=m): [mol] is a required field, so [None] is refused
    by the model validation. *)
Definition RDKitMolecule_init (m : option Mol) : result RDKitMolecule :=
  match m with
  | Some m => Ok {| mol := m; dtype := "rdkit" |}
  | None => Raise (Exn ValidationError "mol: none is not an allowed value")
  end.

(** The functions of [rdkit.Chem] and [rdkit.Chem.AllChem] that
    [rdkit_molecule.py] calls.  A structure file holds a sequence of
    molecule records, [file_records]; [Chem.SDMolSupplier] gives that
    sequence, the other readers give one molecule or [None]. *)
Class Chem : Type := {
  file_records : string → list Mol;
  MolFromPDBFile : string → option Mol;
  MolFromMolFile : string → option Mol;
  MolFromMol2File : string → option Mol;
  MolFromTPLFile : string → option Mol;
  MolFromCode : string → option (string → option Mol);
  AddHs : Mol → Mol;
  EmbedMultipleConfs : Mol → nat → Mol * list nat;
  UFFOptimizeMolecule : Mol → nat → Mol;
}.

End RDKitModel.

(** ** ParmEd structures, as [components/parmed_component.py] uses them *)

Module ParmedModel.
Import Schema.

(** parmed.Residue: name and number.  [Residue.idx] is the position of
    the residue in the residue list of its structure, counted from 0. *)
Record Residue : Type := { res_name : string; res_number : Z }.

(** parmed.topologyobjects.Atom.  [residue] is the position of the atom's
    residue in [Structure.residues], [None] for an atom outside every
    residue. *)
Record Atom : Type := {
  atomic_number : nat;
  name : string;
  type : string;
  mass : Q;
  residue : option nat;
  bond_partners : list nat;
}.

(** parmed.topologyobjects.Bond *)
Record Bond : Type := { atom1 : nat; atom2 : nat; order : nat }.

(** parmed.structure.Structure *)
Record Structure : Type := {
  atoms : list Atom;
  residues : list Residue;
  bonds : list Bond;
  coordinates : list coords;
}.

(** structure.Structure() *)
Definition Structure_empty : Structure :=
  {| atoms := []; residues := []; bonds := []; coordinates := [] |}.

(** pmol.add_atom(atom, resname, resnum, chain='', inscode='', segid=''):
    the atom joins the last residue when name and number agree with it,
    and opens a new residue otherwise. *)
Definition add_atom (s : Structure) (a : Atom) (resname : string) (resnum : Z)
  : Structure :=
  let joins :=
    match last (residues s) with
    | Some r => bool_decide (res_name r = resname ∧ res_number r = resnum)
    | None => false
    end in
  let rs := if joins then residues s
            else residues s ++ [{| res_name := resname; res_number := resnum |}] in
  let a' := {| atomic_number := atomic_number a; name := name a; type := type a;
               mass := mass a; residue := Some (length rs - 1)%nat;
               bond_partners := bond_partners a |} in
  {| atoms := atoms s ++ [a']; residues := rs; bonds := bonds s;
     coordinates := coordinates s |}.

Definition add_partner (j : nat) (a : Atom) : Atom :=
  {| atomic_number := atomic_number a; name := name a; type := type a;
     mass := mass a; residue := residue a;
     bond_partners := bond_partners a ++ [j] |}.

(** pmol.atoms[i].bond_to(pmol.atoms[j]): each atom notes the other one
    as a partner. *)
Definition bond_to (s : Structure) (i j : nat) : result Structure :=
  match atoms s !! i, atoms s !! j with
  | Some _, Some _ =>
      if decide (i = j)
      then Raise (Exn Exception "Cannot bond atom to itself!")
      else Ok {| atoms := alter (add_partner i) j (alter (add_partner j) i (atoms s));
                 residues := residues s; bonds := bonds s;
                 coordinates := coordinates s |}
  | _, _ => Raise (Exn IndexError "list index out of range")
  end.

(** class ParmedMolecule(ToolkitMolecule): mol, dtype = 'parmed' *)
Record ParmedMolecule : Type := { mol : Structure; dtype : string }.

(** The element data qcelemental and ParmEd look up. *)
Class Elements : Type := {
  to_Z : string → nat;
  to_mass : string → Q;
  element_by_Z : nat → string;
}.

End ParmedModel.

(** ** The reader input: [models/molecule/mol_reader.py] (data) *)

Module Reader.
Import Schema Input.

(** The object a [ToolkitMolecule] owns. *)
Inductive native : Type :=
| NativeRDKit (m : RDKitModel.Mol)
| NativeParmed (s : ParmedModel.Structure)
| NativeOther.

(** class ToolkitMolecule(Base): mol, dtype *)
Record ToolkitMolecule : Type := { tk_mol : native; tk_dtype : string }.

(** class MolInput(Base): the three sources, the companion topology file
    and the arguments, each optional. *)
Record MolInput : Type := {
  data : option ToolkitMolecule;
  code : option ChemCode;
  file : option FileInput;
  top_file : option FileInput;
  args : option reader_args;
}.

(** if inputs.args: orient = inputs.args.get('orient') ...
    else: orient, validate, kwargs = False, None, None *)
Definition read_args (inputs : MolInput)
  : option bool * option bool * option kwargs :=
  match args inputs with
  | Some a => (arg_orient a, arg_validate a, arg_kwargs a)
  | None => (Some false, None, None)
  end.

(** if kwargs: input_dict.update(kwargs) *)
Definition apply_kwargs (d : input_dict) (k : option kwargs) : input_dict :=
  match k with Some k => update d k | None => d end.

(** GenericComponent.compute: runs [execute] and hands over its output. *)
Definition compute {I O} (execute : I → result (bool * O)) (inputs : I)
  : result O :=
  '(_, out) ← execute inputs; Ok out.

(** str.lower() *)
Definition lower_ascii (c : Ascii.ascii) : Ascii.ascii :=
  let n := Ascii.nat_of_ascii c in
  if bool_decide (65 ≤ n ≤ 90)%nat then Ascii.ascii_of_nat (n + 32) else c.

Fixpoint lower (s : string) : string :=
  match s with
  | EmptyString => EmptyString
  | String c s' => String (lower_ascii c) (lower s')
  end.

(** What is imported from modules of the repository that are not part of
    this development: the [build] class methods of the toolkit molecules
    and the ParmEd file parser. *)
Class Builders : Type := {
  RDKitMolecule_build : MolInput → string → result RDKitModel.RDKitMolecule;
  ParmedMolecule_build : MolInput → string → result ParmedModel.ParmedMolecule;
  ParmedMolecule_build_mol : MolInput → string → result ParmedModel.ParmedMolecule;
}.

(** importlib.util.find_spec(name) is not None *)
Class Imports : Type := { find_spec : string → bool }.

End Reader.

(** ** [models/molecule/rdkit_molecule.py]: the class methods *)

Module RDKitMol.
Import Schema Input RDKitModel Reader.

Section methods.
Context `{Chem}.

(** Chem.SDMolSupplier(filename, ...): the records of the file. *)
Definition SDMolSupplier (filename : string) : list Mol := file_records filename.

(** def gen3D(cls, mol, nConformers=1):
        rdkmol = Chem.AddHs(mol)
        confargs = AllChem.EmbedMultipleConfs(rdkmol, nConformers)
        for confId in confargs:
            AllChem.UFFOptimizeMolecule(rdkmol, confId=confId)
        return rdkmol *)
Definition gen3D (m : Mol) (nConformers : nat) : Mol :=
  let rdkmol := AddHs m in
  let '(rdkmol, confargs) := EmbedMultipleConfs rdkmol nConformers in
  foldl UFFOptimizeMolecule rdkmol confargs.

(** The file branch of [build_mol]: one reader per format tag. *)
Definition read_file (filename dtype : string) : result (option Mol) :=
  if decide (dtype = "pdb") then Ok (MolFromPDBFile filename)
  else if decide (dtype = "mol") then Ok (MolFromMolFile filename)
  else if decide (dtype = "mol2") then Ok (MolFromMol2File filename)
  else if decide (dtype = "tpl") then Ok (MolFromTPLFile filename)
  else if decide (dtype = "sdf") then
    let rdkmols := SDMolSupplier filename in
    if decide (1 < length rdkmols)
    then Raise (Exn ValueError "SDF file should contain a single molecule")
    else match rdkmols !! 0%nat with
         | Some m => Ok (Some m)
         | None => Raise (Exn IndexError "index out of range")
         end
  else
    (* raise ValueError(f"Unrecognized file type: {ext}"): [ext] is not
       defined in this function *)
    Raise (Exn NameError "name 'ext' is not defined").

(** def build_mol(cls, inputs, dtype) -> "RDKitMolecule" *)
Definition build_mol (inputs : MolInput) (dtype : string)
  : result RDKitMolecule :=
  rdkmol ←
    match file inputs, code inputs with
    | Some f, _ => read_file (path f) dtype
    | None, Some c =>
        match MolFromCode (code_type c) with
        | Some function => Ok (function (Schema.code c))
        | None =>
            Raise (Exn AttributeError ("MolFrom" +:+ code_type c))
        end
    | None, None => Raise (Exn ValueError "Missing input file or code.")
    end;
  rdkmol ←
    (if truthy_opt (code inputs)
     then match rdkmol with
          | Some m => Ok (Some (gen3D m 1))
          | None => Raise (Exn TypeError "AddHs(NoneType)")
          end
     else Ok rdkmol);
  RDKitMolecule_init rdkmol.

End methods.
End RDKitMol.

(** ** [components/trans/rdkit_component.py] *)

Module RDKitComponent.
Import Schema Input RDKitModel Reader.

(** if len(name) != 4: pad names of length 1, 2 and 3 to four columns *)
Definition pad_name (name : string) : string :=
  let n := String.length name in
  if decide (n ≠ 4) then
    if decide (n = 1) then " " +:+ name +:+ "  "
    else if decide (n = 2) then " " +:+ name +:+ " "
    else if decide (n = 3) then " " +:+ name
    else name
  else name.

(** The body of [for index, symb in enumerate(mmol.symbols)]. *)
Definition add_atom_step (mmol : Molecule) (erdkmol : Mol) (ix : nat * string)
  : result Mol :=
  let '(index, symb) := ix in
  '(resname, resnum) ← subscript "list" (residues mmol) index;
  name ← subscript "list" (names mmol) index;
  let name := pad_name name in
  let residue := {| ResidueName := resname; Name := name;
                    ResidueNumber := resnum;
                    Occupancy := 1%Q; TempFactor := 0%Q |} in
  let atom := {| Symbol := symb; MonomerInfo := Some residue |} in
  Ok (AddAtom erdkmol atom).

(** The body of [for i, j, btype in mmol.connectivity]. *)
Definition add_bond_step (erdkmol : Mol) (b : nat * nat * nat) : result Mol :=
  let '(i, j, btype) := b in
  t ← orders_getitem btype;
  Ok (AddBond erdkmol i j t).

(** Iterating over a field that may be [None]. *)
Definition iter {A} (xs : option (list A)) : result (list A) :=
  match xs with
  | Some l => Ok l
  | None => Raise (Exn TypeError "'NoneType' object is not iterable")
  end.

(** for i, coords in enumerate(mmol.geometry): conf.SetAtomPosition(i, coords) *)
Definition set_positions (conf : Conformer) (geo : list coords) : Conformer :=
  foldl (λ c ix, SetAtomPosition c ix.1 ix.2) conf (enumerate geo).

(** class MoleculeToRDKit: def execute(self, inputs, ...) *)
Definition MoleculeToRDKit_execute (inputs : Molecule)
  : result (bool * RDKitMolecule) :=
  let rdkmol := Mol_empty in
  let erdkmol := rdkmol in
  let mmol := inputs in
  erdkmol ← for_each (add_atom_step mmol) (enumerate (symbols mmol)) erdkmol;
  bonds ← iter (connectivity mmol);
  erdkmol ← for_each add_bond_step bonds erdkmol;
  let newmmol := erdkmol in
  let conf := Conformer_new (length (geometry mmol)) in
  let conf := set_positions conf (geometry mmol) in
  let newmmol := AddConformer newmmol conf in
  r ← RDKitMolecule_init (Some newmmol);
  Ok (true, r).

(** [rdmol.mol] for [rdmol = inputs.data] *)
Definition rdkit_mol_of (d : ToolkitMolecule) : result Mol :=
  match tk_mol d with
  | NativeRDKit m => Ok m
  | _ => Raise (Exn AttributeError "GetAtoms")
  end.

(** The body of [for bond in rdmol.mol.GetBonds()]:
        bondOrder = Bond.orders.index(bond.GetBondType())
        connectivity.append((bond.GetBeginAtomIdx(), bond.GetEndAtomIdx(), 1)) *)
Definition append_bond (conn : list (nat * nat * nat)) (bond : RBond)
  : result (list (nat * nat * nat)) :=
  bondOrder ← orders_index (GetBondType bond);
  Ok (conn ++ [(BeginAtomIdx bond, EndAtomIdx bond, 1%nat)]).

(** try: residues = [...]; names = [...]  except: residues = None; names = None
    [atom.GetPDBResidueInfo()] is [None] for an atom without monomer info,
    and the attribute access on it fails. *)
Definition residues_names (m : Mol)
  : option (list (string * Z)) * option (list string) :=
  match mapM MonomerInfo (Atoms m) with
  | Some infos =>
      (Some ((λ r, (ResidueName r, ResidueNumber r)) <$> infos),
       Some (Name <$> infos))
  | None => (None, None)
  end.

Section execute.
Context `{Builders} `{OS}.

(** class RDKitToMolecule: def execute(self, inputs, ...) *)
Definition RDKitToMolecule_execute (inputs : MolInput)
  : result (bool * Molecule) :=
  '(dtype, rdmol) ←
    match data inputs, code inputs, file inputs with
    | Some d, _, _ =>
        let dtype := tk_dtype d in
        if decide (dtype = "rdkit")
        then m ← rdkit_mol_of d; Ok (dtype, m)
        else Raise (Exn AssertionError EmptyString)
    | None, Some c, _ =>
        let dtype := lower (code_type c) in
        r ← RDKitMolecule_build inputs dtype; Ok (dtype, RDKitModel.mol r)
    | None, None, Some f =>
        let dtype := ext f in
        r ← RDKitMolecule_build inputs dtype; Ok (dtype, RDKitModel.mol r)
    | None, None, None => Raise (Exn NotImplementedError EmptyString)
    end;
  let '(orient, validate, kwargs) := read_args inputs in
  let symbs := Symbol <$> Atoms rdmol in
  let '(residues, names) := residues_names rdmol in
  connectivity ← for_each append_bond (Bonds rdmol) [];
  geo ← GetConformer0 rdmol;
  let input_dict :=
    {| d_symbols := symbs; d_geometry := geo; d_residues := residues;
       d_connectivity := Some connectivity; d_masses := None;
       d_names := names |} in
  let input_dict := apply_kwargs input_dict kwargs in
  match code inputs with
  | Some c => Ok (true, Molecule_init orient validate (Some (dtype, c)) input_dict)
  | None => Ok (true, Molecule_init orient validate None input_dict)
  end.

End execute.

(** [Molecule.from_data(native)] for a native RDKit object: the reader
    input carries the object as [data] and nothing else. *)
Definition input_of_rdkit (r : RDKitMolecule) : MolInput :=
  {| data := Some {| tk_mol := NativeRDKit (RDKitModel.mol r);
                     tk_dtype := RDKitModel.dtype r |};
     code := None; file := None; top_file := None; args := None |}.

End RDKitComponent.

(** ** [components/parmed_component.py] *)

Module ParmedComponent.
Import Schema Input ParmedModel Reader.

Section execute.
Context `{Elements} `{Builders} `{OS}.

(** qcelemental's [masses] and [atomic_numbers] properties: the stored
    array, or the values looked up from the symbols. *)
Definition masses_of (mmol : Molecule) : list Q :=
  default (to_mass <$> symbols mmol) (masses mmol).

Definition atomic_numbers (mmol : Molecule) : list nat :=
  to_Z <$> symbols mmol.

(** The body of [for index, symb in enumerate(mmol.symbols)]. *)
Definition add_atom_step (mmol : Molecule) (pmol : Structure) (ix : nat * string)
  : result Structure :=
  let '(index, symb) := ix in
  name ← subscript "list" (names mmol) index;
  atomic_number ← subscript "array" (Some (atomic_numbers mmol)) index;
  mass ← subscript "array" (Some (masses_of mmol)) index;
  let atom := {| atomic_number := atomic_number; name := name; type := symb;
                 mass := mass; residue := None; bond_partners := [] |} in
  '(resname, resnum) ← subscript "list" (Schema.residues mmol) index;
  Ok (add_atom pmol atom resname (resnum + 1)).

(** The body of [for i, j, btype in mmol.connectivity]. *)
Definition bond_step (pmol : Structure) (b : nat * nat * nat) : result Structure :=
  let '(i, j, btype) := b in bond_to pmol i j.

(** class MoleculeToParmed: def execute(self, inputs, ...) *)
Definition MoleculeToParmed_execute (inputs : Molecule)
  : result (bool * ParmedMolecule) :=
  let mmol := inputs in
  let pmol := Structure_empty in
  pmol ← for_each (add_atom_step mmol) (enumerate (symbols mmol)) pmol;
  conn ← RDKitComponent.iter (connectivity mmol);
  pmol ← for_each bond_step conn pmol;
  let pmol := {| atoms := atoms pmol; residues := ParmedModel.residues pmol;
                 bonds := bonds pmol; coordinates := geometry mmol |} in
  (* print("Residues for ParmEd: ", pmol.residues[0].atoms) *)
  _ ← match ParmedModel.residues pmol !! 0%nat with
      | Some r => Ok r
      | None => Raise (Exn IndexError "list index out of range")
      end;
  Ok (true, {| mol := pmol; dtype := "parmed" |}).

(** [pmol.mol] for [pmol = inputs.data] *)
Definition parmed_mol_of (d : ToolkitMolecule) : result Structure :=
  match tk_mol d with
  | NativeParmed s => Ok s
  | _ => Raise (Exn AttributeError "atoms")
  end.

(** try: residues = [(atom.residue.name, atom.residue.idx) for atom in ...]
    except: residues = None *)
Definition residues_of (pmol : Structure) : option (list (string * Z)) :=
  mapM (λ a : Atom,
          i ← residue a;
          r ← ParmedModel.residues pmol !! i;
          Some (res_name r, Z.of_nat i))
       (atoms pmol).

(** class ParmedToMolecule: def execute(self, inputs, ...) *)
Definition ParmedToMolecule_execute (inputs : MolInput)
  : result (bool * Molecule) :=
  pmol ←
    match data inputs, code inputs, file inputs with
    | Some d, _, _ =>
        if decide (tk_dtype d = "parmed")
        then parmed_mol_of d
        else Raise (Exn AssertionError EmptyString)
    | None, Some c, _ =>
        Raise (Exn NotImplementedError
          "ParmEd does not support instantiating molecule objects from chemical codes.")
    | None, None, Some f =>
        r ← ParmedMolecule_build_mol inputs (ext f); Ok (mol r)
    | None, None, None =>
        (* the message of the raise reads [dtype], which no branch has set *)
        Raise (Exn UnboundLocalError "local variable 'dtype' referenced before assignment")
    end;
  let '(orient, validate, kwargs) := read_args inputs in
  let symbs := (λ a, element_by_Z (atomic_number a)) <$> atoms pmol in
  let names := name <$> atoms pmol in
  let masses := Some (mass <$> atoms pmol) in
  let residues := residues_of pmol in
  let connectivity := (λ b, (atom1 b, atom2 b, order b)) <$> bonds pmol in
  let geo := coordinates pmol in
  let input_dict :=
    {| d_symbols := symbs; d_geometry := geo; d_residues := residues;
       d_connectivity := Some connectivity; d_masses := masses;
       d_names := Some names |} in
  let input_dict := apply_kwargs input_dict kwargs in
  Ok (true, Molecule_init orient validate None input_dict).

End execute.


End ParmedComponent.

(** ** [components/io/molreader_component.py] *)

Module MolReader.
Import Schema Input Reader.

(** What an execution does besides returning: the adapters it invokes and
    the lines it prints. *)
Inductive event : Type :=
| Invoke (component : string)
| Print (text : string).

(** TkMolReaderComponent._extension_maps, in the order of the literal. *)
Definition _extension_maps : list (string * gmap string string) :=
  [ ("qcelemental",
      list_to_map [ (".npy", "numpy"); (".json", "json"); (".xyz", "xyz");
                    (".psimol", "psi4"); (".psi4", "psi4");
                    (".msgpack", "msgpack") ]);
    ("rdkit",
      list_to_map [ (".pdb", "pdb"); (".mol", "mol"); (".mol2", "mol2");
                    (".tpl", "tpl"); (".sdf", "sdf"); (".smiles", "smiles") ]);
    ("parmed",
      list_to_map [ (".gro", "gro"); (".psf", "psf"); (".pdb", "pdb");
                    (".top", "top") ]) ].

(** Truth value of [d.get(key)] for a dict of strings. *)
Definition truthy_get (m : gmap string string) (key : string) : bool :=
  match m !! key with Some v => truthy_str v | None => false end.

Section execute.
Context `{Imports} `{Builders} `{OS} `{ParmedModel.Elements}.

(** The loop of [TkMolReaderComponent.execute] over the toolkits still to
    visit.  [Some (toolkit, dtype)] is a [break]; after a pass without
    [break] the last statement of the body has set [toolkit = None]. *)
Fixpoint resolve_loop (maps : list (string * gmap string string))
    (file_ext : string) (top_ext : option string) : option (string * string) :=
  match maps with
  | [] => None
  | (toolkit, m) :: rest =>
      let dtype := m !! file_ext in
      let stop :=
        match dtype with
        | Some d =>
            if truthy_str d then
              match top_ext with
              | Some t => if truthy_get m t then find_spec toolkit else false
              | None => find_spec toolkit
              end
            else false
        | None => false
        end in
      match stop, dtype with
      | true, Some d => Some (toolkit, d)
      | _, _ => resolve_loop rest file_ext top_ext
      end
  end.

(** The file branch of [TkMolReaderComponent.execute] up to the check
    [if not toolkit: raise ValueError(...)]. *)
Definition resolve_by_extension (file_ext : string) (top_ext : option string)
  : result (string * string) :=
  match resolve_loop _extension_maps file_ext top_ext with
  | Some (toolkit, dtype) => Ok (toolkit, dtype)
  | None =>
      Raise (Exn ValueError
        ("Data type not understood for file ext " +:+ file_ext +:+ "."))
  end.

(** class TkMolReaderComponent: def execute(self, inputs, ...) *)
Definition TkMolReaderComponent_execute (inputs : MolInput)
  : result (bool * ToolkitMolecule) :=
  '(toolkit, dtype) ←
    match file inputs, code inputs with
    | Some f, _ => resolve_by_extension (ext f) (ext <$> top_file inputs)
    | None, Some c => Ok ("rdkit", lower (code_type c))
    | None, None =>
        Raise (Exn ValueError
          "Data type not understood. Supply a file or a chemical code.")
    end;
  if decide (toolkit = "rdkit") then
    r ← RDKitMolecule_build inputs dtype;
    Ok (true, {| tk_mol := NativeRDKit (RDKitModel.mol r);
                 tk_dtype := RDKitModel.dtype r |})
  else if decide (toolkit = "parmed") then
    r ← ParmedMolecule_build inputs dtype;
    Ok (true, {| tk_mol := NativeParmed (ParmedModel.mol r);
                 tk_dtype := ParmedModel.dtype r |})
  else
    Raise (Exn ValueError
      ("Data type " +:+ dtype +:+ " not supported by TkMolReaderComponent.")).

(** [from ...rdkit_component import RDKitToMolecule]: the module raises
    [ModuleNotFoundError] when rdkit cannot be imported. *)
Definition import_component (toolkit : string) : result unit :=
  if find_spec toolkit then Ok ()
  else Raise (Exn ModuleNotFoundError
                ("Make sure " +:+ toolkit +:+ " is installed.")).

(** [return True, RDKitToMolecule.compute(inputs)] after the import. *)
Definition call_rdkit (inputs : MolInput)
  : list event * result (option (bool * Molecule)) :=
  match import_component "rdkit" with
  | Raise e => ([], Raise e)
  | Ok _ =>
      ([Invoke "RDKitToMolecule"],
       out ← compute RDKitComponent.RDKitToMolecule_execute inputs;
       Ok (Some (true, out)))
  end.

(** [return True, ParmedToMolecule.compute(inputs)] after the import. *)
Definition call_parmed (inputs : MolInput)
  : list event * result (option (bool * Molecule)) :=
  match import_component "parmed" with
  | Raise e => ([], Raise e)
  | Ok _ =>
      ([Invoke "ParmedToMolecule"],
       out ← compute ParmedComponent.ParmedToMolecule_execute inputs;
       Ok (Some (true, out)))
  end.

(** class MolReaderComponent: def execute(self, inputs, ...).
    The result [Ok None] is a call that ends without a [return]. *)
Definition MolReaderComponent_execute (inputs : MolInput)
  : list event * result (option (bool * Molecule)) :=
  let '(orient, validate, kwargs) := read_args inputs in
  match data inputs, code inputs, file inputs with
  | Some d, _, _ =>
      let dtype := tk_dtype d in
      if decide (dtype = "qcelemental") then
        (* ...Molecule.from_data(data, dtype, ...): [data] is not a name
           of this function *)
        ([], Raise (Exn NameError "name 'data' is not defined"))
      else if decide (dtype = "rdkit") then call_rdkit inputs
      else if decide (dtype = "parmed") then call_parmed inputs
      else ([], Raise (Exn NotImplementedError
                   ("Data type not yet supported: " +:+ dtype +:+ ".")))
  | None, Some c, _ => call_rdkit inputs
  | None, None, Some f =>
      match call_rdkit inputs with
      | (t1, Ok r) => (t1, Ok r)
      | (t1, Raise _) =>                                   (* except: *)
          match call_parmed inputs with
          | (t2, Ok r) => (t1 ++ t2, Ok r)
          | (t2, Raise error) =>
              if is_ImportError error                 (* except ImportError *)
              then (t1 ++ t2 ++
                      [Print ("Neither parmed nor rdkit found. " +:+ exn_msg error)],
                    Ok None)
              else (t1 ++ t2, Raise error)
          end
      end
  | None, None, None =>
      ([], Raise (Exn NotImplementedError
         "Molecules can be instantiated from codes, files, or other data objects."))
  end.

End execute.
End MolReader.

(** ** [models/molecule/mm_molecule.py]: [Molecule.to_file] *)

Module MMMolecule.
Import Schema Input Reader.

(** The serializers [to_file] hands the molecule to: qcelemental's
    [Molecule.to_file], the RDKit writer classes ([Chem.PDBWriter(filename)],
    [write], [close]) and ParmEd's [Structure.save]. *)
Class Serializers : Type := {
  super_to_file : Molecule → string → string → result unit;
  writer_write : string → string → RDKitModel.Mol → result unit;
  parmed_save : ParmedModel.Structure → string → result unit;
}.

(** if dtype == 'pdb': writer = Chem.PDBWriter(filename)
    elif dtype == 'sdf': writer = Chem.SDWriter(filename)
    elif dtype == 'smiles': writer = Chem.SmilesWriter(filename)
    else: raise NotImplementedError(f'File format {dtype} not supported by rdkit.') *)
Definition rdkit_writer (dtype : string) : result string :=
  if decide (dtype = "pdb") then Ok "PDBWriter"
  else if decide (dtype = "sdf") then Ok "SDWriter"
  else if decide (dtype = "smiles") then Ok "SmilesWriter"
  else Raise (Exn NotImplementedError
                ("File format " +:+ dtype +:+ " not supported by rdkit.")).

(** for map_name in maps: if key in maps[map_name]: ...; break *)
Definition first_claiming (maps : list (string * gmap string string))
    (key : string) : option (string * gmap string string) :=
  snd <$> list_find (λ tm, is_Some (tm.2 !! key)) maps.

Section to_file.
Context `{Imports} `{OS} `{ParmedModel.Elements} `{Builders} `{Serializers}.

(** [TkMoleculeReaderComponent._extension_maps], as imported by
    [mm_molecule.py]. *)
Variable maps : list (string * gmap string string).

(** The two loops at the head of [to_file]: the toolkit and the format
    tag, or [None] when no map matched and [toolkit] was never bound. *)
Definition route (filename : string) (dtype : option string)
  : option (string * string) :=
  match dtype with
  | Some d =>
      if truthy_str d then
        '(toolkit, _) ← first_claiming maps d; Some (toolkit, d)
      else
        let ext := suffix filename in
        '(toolkit, m) ← first_claiming maps ext;
        d' ← m !! ext; Some (toolkit, d')
  | None =>
      let ext := suffix filename in
      '(toolkit, m) ← first_claiming maps ext;
      d' ← m !! ext; Some (toolkit, d')
  end.

(** The RDKit write step: choose the writer for the tag, write, close. *)
Definition rdkit_write (rdkmol : RDKitModel.RDKitMolecule)
    (filename dtype : string) : result unit :=
  writer ← rdkit_writer dtype;
  writer_write writer filename (RDKitModel.mol rdkmol).

(** def to_file(self, filename, dtype=None) -> None *)
Definition to_file (self : Molecule) (filename : string) (dtype : option string)
  : result unit :=
  match route filename dtype with
  | None =>
      Raise (Exn UnboundLocalError
               "local variable 'toolkit' referenced before assignment")
  | Some (toolkit, dtype) =>
      if decide (toolkit = "qcelem") then
        super_to_file self filename dtype
      else if decide (toolkit = "rdkit") then
        _ ← MolReader.import_component "rdkit";
        rdkmol ← compute RDKitComponent.MoleculeToRDKit_execute self;
        rdkit_write rdkmol filename dtype
      else if decide (toolkit = "parmed") then
        _ ← MolReader.import_component "parmed";
        pmol ← compute ParmedComponent.MoleculeToParmed_execute self;
        parmed_save (ParmedModel.mol pmol) filename
      else
        Raise (Exn ValueError ("Data type not yet supported: " +:+ dtype))
  end.


End to_file.
End MMMolecule.

(** ** The adapters composed, and what the properties speak about *)

Module Adapters.
Import Schema Input Reader.

Section roundtrip.
Context `{Builders} `{OS} `{ParmedModel.Elements}.

(** to_canonical(from_canonical(m)) through the RDKit adapter *)
Definition rdkit_roundtrip (m : Molecule) : result Molecule :=
  r ← compute RDKitComponent.MoleculeToRDKit_execute m;
  compute RDKitComponent.RDKitToMolecule_execute (RDKitComponent.input_of_rdkit r).


End roundtrip.

(** Residue numbering from 1, as the docstring of [Molecule.residues]
    has it. *)
Definition one_based (rs : option (list (string * Z))) : Prop :=
  match rs with
  | Some l => Forall (λ r, (1 ≤ r.2)%Z) l
  | None => True
  end.

#[global] Instance one_based_dec rs : Decision (one_based rs).
Proof. destruct rs; simpl; apply _. Defined.


(** A toolkit of the extension table can be selected for a file: it claims
    the extension, it can be imported, and it claims the extension of the
    topology file when there is one. *)
Definition claims (m : gmap string string) (e : string) : Prop := is_Some (m !! e).

Definition eligible `{Imports} (file_ext : string) (top_ext : option string)
    (tm : string * gmap string string) : Prop :=
  claims tm.2 file_ext
  ∧ find_spec tm.1 = true
  ∧ ∀ t, top_ext = Some t → claims tm.2 t.

(** Every format tag of an extension table is a non-empty string. *)
Definition tags_nonempty (maps : list (string * gmap string string)) : Prop :=
  Forall (λ tm, map_Forall (λ _ v, truthy_str v = true) tm.2) maps.

(** The toolkit at position [i] of the table is the first eligible one. *)
Definition first_eligible `{Imports} (maps : list (string * gmap string string))
    (file_ext : string) (top_ext : option string)
    (toolkit : string) (dtype : string) : Prop :=
  ∃ (i : nat) (m : gmap string string),
    maps !! i = Some (toolkit, m)
    ∧ m !! file_ext = Some dtype
    ∧ eligible file_ext top_ext (toolkit, m)
    ∧ ∀ j tm, (j < i)%nat → maps !! j = Some tm → ¬ eligible file_ext top_ext tm.

End Adapters.

(** ** Concrete inputs and environments *)

Module Examples.
Import Schema Input Reader.

Definition origin : coords := (0%Q, 0%Q, 0%Q).

(** Methane with atom names and without residues. *)
Definition methane : Molecule :=
  {| symbols := ["C"; "H"; "H"; "H"; "H"];
     geometry := [ origin; ((1 # 2)%Q, (1 # 2)%Q, (1 # 2)%Q);
                   ((-1 # 2)%Q, (-1 # 2)%Q, (1 # 2)%Q);
                   ((-1 # 2)%Q, (1 # 2)%Q, (-1 # 2)%Q);
                   ((1 # 2)%Q, (-1 # 2)%Q, (-1 # 2)%Q) ];
     residues := None;
     connectivity := Some [(0, 1, 1); (0, 2, 1); (0, 3, 1); (0, 4, 1)]%nat;
     names := Some [" C1 "; " H1 "; " H2 "; " H3 "; " H4 "];
     masses := None; identifiers := None;
     orient := Some false; validate := None |}.

(** Dioxygen with residue and name annotations and its double bond. *)
Definition dioxygen : Molecule :=
  {| symbols := ["O"; "O"];
     geometry := [ origin; ((6 # 5)%Q, 0%Q, 0%Q) ];
     residues := Some [("OXY", 1%Z); ("OXY", 1%Z)];
     connectivity := Some [(0, 1, 2)]%nat;
     names := Some [" O1 "; " O2 "]; masses := None; identifiers := None;
     orient := Some false; validate := None |}.

(** The same molecule as RDKit holds it. *)
Definition dioxygen_rdkit : RDKitModel.RDKitMolecule :=
  let info n := {| RDKitModel.ResidueName := "OXY"; RDKitModel.Name := n;
                   RDKitModel.ResidueNumber := 1%Z;
                   RDKitModel.Occupancy := 1%Q; RDKitModel.TempFactor := 0%Q |} in
  {| RDKitModel.mol :=
       {| RDKitModel.Atoms :=
            [ {| RDKitModel.Symbol := "O"; RDKitModel.MonomerInfo := Some (info " O1 ") |};
              {| RDKitModel.Symbol := "O"; RDKitModel.MonomerInfo := Some (info " O2 ") |} ];
          RDKitModel.Bonds :=
            [ {| RDKitModel.BeginAtomIdx := 0; RDKitModel.EndAtomIdx := 1;
                 RDKitModel.GetBondType := RDKitModel.DOUBLE |} ];
          RDKitModel.Conformers := [ [ origin; ((6 # 5)%Q, 0%Q, 0%Q) ] ] |};
     RDKitModel.dtype := "rdkit" |}.



(** The canonical molecule of that atom, residue number 1. *)
Definition alanine : Molecule :=
  {| symbols := ["C"]; geometry := [origin];
     residues := Some [("ALA", 1%Z)]; connectivity := Some [];
     names := Some ["CA"]; masses := None; identifiers := None;
     orient := Some false; validate := None |}.

Definition carbon_only : ParmedModel.Elements :=
  {| ParmedModel.to_Z := λ _, 6%nat; ParmedModel.to_mass := λ _, (12 # 1)%Q;
     ParmedModel.element_by_Z := λ _, "C" |}.

(** An installation with every toolkit, and one with none. *)
Definition all_installed : Imports := {| find_spec := λ _, true |}.
Definition none_installed : Imports := {| find_spec := λ _, false |}.
Definition only_parmed : Imports :=
  {| find_spec := λ name, bool_decide (name = "parmed") |}.

(** The suffix of the file names the examples use. *)
Definition example_os : OS :=
  {| abspath := id;
     suffix := λ p,
       if decide (p = "mol.pdb") then ".pdb"
       else if decide (p = "two.mol2") then ".mol2"
       else if decide (p = "two.sdf") then ".sdf"
       else if decide (p = "out.mol2") then ".mol2"
       else if decide (p = "conf.gro") then ".gro"
       else if decide (p = "data.unknownext") then ".unknownext"
       else EmptyString |}.

(** Two records, as RDKit holds them. *)
Definition record1 : RDKitModel.Mol := RDKitModel.mol dioxygen_rdkit.
Definition record2 : RDKitModel.Mol :=
  {| RDKitModel.Atoms := [ {| RDKitModel.Symbol := "He"; RDKitModel.MonomerInfo := None |} ];
     RDKitModel.Bonds := []; RDKitModel.Conformers := [ [origin] ] |}.

(** RDKit over a file system where ["two.mol2"] and ["two.sdf"] hold the
    two records.  The single-molecule readers parse the first molecule of
    a file. *)
Definition two_record_files : RDKitModel.Chem :=
  let records := λ p : string,
    if decide (p = "two.mol2") then [record1; record2]
    else if decide (p = "two.sdf") then [record1; record2]
    else [] in
  {| RDKitModel.file_records := records;
     RDKitModel.MolFromPDBFile := λ p, head (records p);
     RDKitModel.MolFromMolFile := λ p, head (records p);
     RDKitModel.MolFromMol2File := λ p, head (records p);
     RDKitModel.MolFromTPLFile := λ p, head (records p);
     RDKitModel.MolFromCode := λ _, None;
     RDKitModel.AddHs := id;
     RDKitModel.EmbedMultipleConfs := λ m _, (m, []);
     RDKitModel.UFFOptimizeMolecule := λ m _, m |}.

(** [build] taken to be [build_mol]; no ParmEd parser. *)
Definition example_builders : Builders :=
  {| RDKitMolecule_build := RDKitMol.build_mol (H := two_record_files);
     ParmedMolecule_build := λ _ _, Raise (Exn ValueError "no parser");
     ParmedMolecule_build_mol := λ _ _, Raise (Exn ValueError "no parser") |}.

Definition file_input (p : string) : MolInput :=
  {| data := None; code := None; file := Some {| path := p |};
     top_file := None; args := None |}.

(** A reader input with both a code and a file. *)
Definition code_and_file : MolInput :=
  {| data := None; code := Some {| Schema.code := "O=O"; code_type := "Smiles" |};
     file := Some {| path := "mol.pdb" |}; top_file := None; args := None |}.



(** Serializers that accept everything. *)
Definition accepting : MMMolecule.Serializers :=
  {| MMMolecule.super_to_file := λ _ _ _, Ok ();
     MMMolecule.writer_write := λ _ _ _, Ok ();
     MMMolecule.parmed_save := λ _ _, Ok () |}.

End Examples.


(** ** [models/util/input.py]: building a [FileInput] *)

Module InputOps.
Import Input.

(** [IOError], which the validator of [path] raises; it is not one of the
    classes the model validation turns into a [ValidationError]. *)
Inductive os_error : Type := IOError (msg : string).

Section validate.
Context `{OS}.

(** @validator('path')
    def _exists(cls, path):
        if not os.path.isfile(path):
            raise IOError(f'Input file {path} does not eixst.')
        return path *)
Definition _exists (p : string) (w : World) : os_error + string :=
  if decide (is_Some (files w !! abspath p)) then inr p
  else inl (IOError ("Input file " +:+ p +:+ " does not eixst.")).

(** FileInput(path=p) *)
Definition FileInput_init (p : string) (w : World) : os_error + FileInput :=
  match _exists p w with
  | inr p' => inr {| path := p' |}
  | inl e => inl e
  end.

End validate.
End InputOps.


(** ** [models/molecule/rdkit_molecule.py]: [remove_residues] *)

Module RDKitEdit.
Import Schema RDKitModel.

(** What [remove_residues] can raise: a Python exception of the sources,
    or RDKit's range error for an atom index the molecule does not have. *)
Inductive rw_error : Type :=
| PyError (e : exn)
| RangeError.

(** An atom index after the atom at [idx] has been taken out. *)
Definition shift_down (idx k : nat) : nat :=
  if decide (idx < k)%nat then (k - 1)%nat else k.

(** RWmol.RemoveAtom(idx): the atom leaves the molecule with its bonds and
    its position in every conformer, and the atoms after it move down by
    one index. *)
Definition RemoveAtom (m : Mol) (idx : nat) : rw_error + Mol :=
  if decide (idx < length (Atoms m))%nat then
    inr {| Atoms := delete idx (Atoms m);
           Bonds :=
             (λ b, {| BeginAtomIdx := shift_down idx (BeginAtomIdx b);
                      EndAtomIdx := shift_down idx (EndAtomIdx b);
                      GetBondType := GetBondType b |})
             <$> filter (λ b, BeginAtomIdx b ≠ idx ∧ EndAtomIdx b ≠ idx) (Bonds m);
           Conformers := delete idx <$> Conformers m |}
  else inl RangeError.

(** A loop whose body may raise. *)
Fixpoint fold_sum {E A S} (body : S → A → E + S) (xs : list A) (s : S) : E + S :=
  match xs with
  | [] => inr s
  | x :: xs' =>
      match body s x with
      | inr s' => fold_sum body xs' s'
      | inl e => inl e
      end
  end.

(** The body of [for atom in atoms]:
        if atom.GetPDBResidueInfo().GetResidueName() in residues:
            RWmol.RemoveAtom(atom.GetIdx())
    [atom] is an atom of the molecule passed in, so [atom.GetIdx()] is its
    index there. *)
Definition remove_step (residues : list string) (RWmol : Mol) (ia : nat * Atom)
  : rw_error + Mol :=
  let '(idx, atom) := ia in
  match MonomerInfo atom with
  | None =>
      inl (PyError (Exn AttributeError
             "'NoneType' object has no attribute 'GetResidueName'"))
  | Some info =>
      if decide (ResidueName info ∈ residues) then RemoveAtom RWmol idx
      else inr RWmol
  end.

(** def remove_residues(cls, mol, residues: List[str]) -> Chem.rdchem.Mol *)
Definition remove_residues (mol : Mol) (residues : list string) : rw_error + Mol :=
  let atoms := Atoms mol in
  let RWmol := mol in
  fold_sum (remove_step residues) (enumerate atoms) RWmol.

(** The atom carries residue info and its residue is listed, or is not. *)
Definition listed (residues : list string) (a : Atom) : Prop :=
  ∃ info, MonomerInfo a = Some info ∧ ResidueName info ∈ residues.

Definition kept (residues : list string) (a : Atom) : Prop :=
  ∃ info, MonomerInfo a = Some info ∧ ResidueName info ∉ residues.

End RDKitEdit.

(** ** Further concrete inputs *)

Module MoreExamples.
Import Schema Input Reader Examples.

(** An oxygen atom of a water molecule. *)
Definition water_atom : RDKitModel.Atom :=
  {| RDKitModel.Symbol := "O";
     RDKitModel.MonomerInfo :=
       Some {| RDKitModel.ResidueName := "HOH"; RDKitModel.Name := " O  ";
               RDKitModel.ResidueNumber := 2%Z;
               RDKitModel.Occupancy := 1%Q; RDKitModel.TempFactor := 0%Q |} |}.

(** Dioxygen followed by one water. *)
Definition record2' : RDKitModel.Mol :=
  {| RDKitModel.Atoms := RDKitModel.Atoms record1 ++ [water_atom];
     RDKitModel.Bonds := RDKitModel.Bonds record1;
     RDKitModel.Conformers := [ [origin; ((6 # 5)%Q, 0%Q, 0%Q); origin] ] |}.

(** Two waters. *)
Definition two_waters : RDKitModel.Mol :=
  {| RDKitModel.Atoms := [water_atom; water_atom];
     RDKitModel.Bonds := [];
     RDKitModel.Conformers := [ [origin; ((3 # 1)%Q, 0%Q, 0%Q)] ] |}.


(** A reader input with data tagged qcelemental. *)
Definition qcel_data : MolInput :=
  {| data := Some {| tk_mol := NativeOther; tk_dtype := "qcelemental" |};
     code := None; file := None; top_file := None; args := None |}.




(** An operating system that knows the suffix of ["water.xyz"]. *)
Definition xyz_os : OS :=
  {| abspath := id;
     suffix := λ p, if decide (p = "water.xyz") then ".xyz" else EmptyString |}.



End MoreExamples.


(** ** What the RDKit adapter builds *)

Module RDKitImage.
Import Schema RDKitModel RDKitComponent.








End RDKitImage.


(** ** Reader inputs with and without caller overrides *)

Module ReaderArgs.
Import Schema Input Reader.



End ReaderArgs.


(** ** What a reader call invokes *)

Module ReaderTrace.
Import Schema Input Reader MolReader.

(** The extensions of the qcelemental map of the extension table. *)
Definition qcelemental_exts : list string :=
  [".npy"; ".json"; ".xyz"; ".psimol"; ".psi4"; ".msgpack"].

(** The ParmEd adapter is invoked. *)
Definition invokes_parmed (t : list event) : Prop :=
  Invoke "ParmedToMolecule" ∈ t.

End ReaderTrace.


(** ** What the ParmEd adapter keeps true of a structure *)

Module ParmedInv.
Import Schema ParmedModel.


End ParmedInv.


(** ** [models/molecule/mm_molecule.py]: [Molecule.to_data] *)

Module MMMoleculeOps.
Import Schema Input Reader MMMolecule.

Section ops.
Context `{Imports}.

(** def to_data(self, dtype: str):
        if dtype == 'rdkit':
            from mmelemental.components.rdkit_component import MoleculeToRDKit
            return MoleculeToRDKit.compute(self).mol
        else:
            raise NotImplementedError(f'Data type {dtype} not available.') *)
Definition to_data (self : Molecule) (dtype : string) : result RDKitModel.Mol :=
  if decide (dtype = "rdkit") then
    _ ← MolReader.import_component "rdkit";
    r ← compute RDKitComponent.MoleculeToRDKit_execute self;
    Ok (RDKitModel.mol r)
  else
    Raise (Exn NotImplementedError ("Data type " +:+ dtype +:+ " not available.")).

End ops.

(** A string that starts with a dot, as [Path(...).suffix] gives them. *)
Definition is_extension (s : string) : Prop := ∃ rest, s = "." +:+ rest.

(** Every key of every map of an extension table is an extension. *)
Definition keyed_by_extension (maps : list (string * gmap string string)) : Prop :=
  Forall (λ tm, ∀ k, is_Some (tm.2 !! k) → is_extension k) maps.

End MMMoleculeOps.

(* ===================================================================== *)
(** * Part II: properties                                                 *)
(* ===================================================================== *)

Module InputFacts.
Import Input.

Section facts.
Context `{OS}.

Lemma remove_absent (self : FileInput) (w : World) :
  files (remove self w) !! abs_path self = None.
Proof.
  unfold remove. case_decide as Hf; simpl.
  - apply lookup_delete_eq.
  - by apply eq_None_not_Some.
Qed.

Lemma remove_files (self : FileInput) (w : World) :
  files (remove self w) = delete (abs_path self) (files w).
Proof.
  unfold remove. case_decide as Hf; simpl; [done|].
  symmetry. apply delete_id. by apply eq_None_not_Some.
Qed.

Lemma remove_content (self : FileInput) (w : World) :
  _content (remove self w) = _content w.
Proof. unfold remove. by case_decide. Qed.

(** C9. Leaving the context of a [FileInput] without an exception calls
    [remove()], which deletes the input file: afterwards the file system is
    the old one without the file, so the file is not left in place by a
    successful with-block.  Leaving it with an exception raises a new bare
    [Exception], which replaces the exception of the block. *)
Theorem FileInput_exit_removes_file (self : FileInput) (w : World) :
  (__exit__ self None w = (Ok (), remove self w)
   ∧ files (remove self w) = delete (abs_path self) (files w)
   ∧ files (remove self w) !! abs_path self = None)
  ∧ (∀ tb, __exit__ self (Some tb) w = (Raise (Exn Exception EmptyString), w))
  ∧ (∀ (A : Type) (body : FileInput → World → result A * World),
       match body self w with
       | (Ok a, w1) =>
           with_block self body w = (Ok a, remove self w1)
           ∧ files (with_block self body w).2 !! abs_path self = None
       | (Raise e, w1) =>
           with_block self body w = (Raise (Exn Exception EmptyString), w1)
       end).
Proof.
  split; [|split].
  - split; [done|]. split; [apply remove_files|apply remove_absent].
  - by intros [].
  - intros A body. unfold with_block, __enter__.
    destruct (body self w) as [[a|e] w1]; simpl; [|done].
    split; [done|apply remove_absent].
Qed.

(** *** The shared [_content] list *)

Lemma read_after_first (self : FileInput) (w : World) c0 rest :
  _content w = c0 :: rest →
  (read self w).1 = Ok c0 ∧ _content (read self w).2 = c0 :: rest ++ [default c0 (files w !! abs_path self)]
  ∨ raised (read self w).1 ∧ (read self w).2 = w.
Proof.
  intros Hc. unfold read.
  destruct (files w !! abs_path self) as [text|]; simpl.
  - left. rewrite Hc. simpl. done.
  - by right.
Qed.

Lemma run_after_first (acts : list action) :
  ∀ (w : World) c0 rest,
    _content w = c0 :: rest →
    ∀ c, c ∈ successes (run acts w).1 → c = c0.
Proof.
  induction acts as [|[self|p text|self] acts IH]; intros w c0 rest Hc c; simpl.
  - unfold successes. simpl. by intros ?%elem_of_nil.
  - destruct (read_after_first self w c0 rest Hc) as [[Hr Hw]|[Hr Hw]].
    + destruct (read self w) as [r w1]; simpl in *. subst r.
      destruct (run acts w1) as [rs w2] eqn:Hrun. unfold successes; simpl.
      intros [->|Hin]%elem_of_cons; [done|].
      apply (IH w1 c0 _ Hw). by rewrite Hrun.
    + destruct (read self w) as [r w1]; simpl in *. subst w1.
      destruct (run acts w) as [rs w2] eqn:Hrun. unfold successes; simpl.
      destruct r as [?|e]; [done|]. simpl.
      intros Hin. apply (IH w c0 rest Hc). by rewrite Hrun.
  - apply (IH _ c0 rest). done.
  - apply (IH _ c0 rest). by rewrite remove_content.
Qed.

(** C10. [_content] belongs to the class, so once a first [read()] has
    captured the text of its file, every later [read()] that returns, on
    the same instance or on any other one and whatever the files hold by
    then, returns that first text. *)
Theorem FileInput_read_returns_first_content
    (self : FileInput) (text : string) (acts : list action) (w : World) :
  _content w = [] →
  files w !! abs_path self = Some text →
  (read self w).1 = Ok text
  ∧ ∀ c, c ∈ successes (run (DoRead self :: acts) w).1 → c = text.
Proof.
  intros Hnil Hfile.
  assert (read self w = (Ok text,
            {| files := files w; _content := [text] |})) as Hread.
  { unfold read. rewrite Hfile, Hnil. done. }
  split; [by rewrite Hread|].
  intros c. simpl. rewrite Hread.
  destruct (run acts _) as [rs w2] eqn:Hrun. unfold successes; simpl.
  intros [->|Hin]%elem_of_cons; [done|].
  apply (run_after_first acts {| files := files w; _content := [text] |}
           text [] eq_refl).
  by rewrite Hrun.
Qed.

End facts.

(** The second read goes through another instance, whose file holds
    ["beta"], and still returns ["alpha"]. *)
Lemma FileInput_read_returns_first_content_witness :
  (run (H := plain_os)
     [DoRead {| path := "/a.txt" |}; DoRead {| path := "/b.txt" |}] world0).1
    = [Ok "alpha"; Ok "alpha"]
  ∧ ∀ c, c ∈ successes (run (H := plain_os)
            [DoRead {| path := "/a.txt" |}; DoRead {| path := "/b.txt" |}]
            world0).1 → c = "alpha".
Proof.
  split; [vm_compute; reflexivity|].
  apply (FileInput_read_returns_first_content (H := plain_os)
           {| path := "/a.txt" |} "alpha" [DoRead {| path := "/b.txt" |}] world0);
    vm_compute; reflexivity.
Defined.

End InputFacts.

(** ** The RDKit adapter *)

Module RDKitFacts.
Import Schema Input Reader RDKitModel RDKitComponent Adapters Examples.

Lemma orders_index_total (t : BondType) :
  ∃ n, orders_index t = Ok n ∧ orders !! n = Some t.
Proof. destruct t; vm_compute; eauto. Qed.

Lemma orders_getitem_in_range (n : nat) :
  (n < 22)%nat → ∃ t, orders_getitem n = Ok t.
Proof.
  intros Hn. unfold orders_getitem.
  destruct (orders !! n) as [t|] eqn:Hl; [eauto|].
  apply lookup_ge_None in Hl. simpl in Hl. lia.
Qed.

Lemma append_bond_one (conn : list (nat * nat * nat)) (bond : RBond) :
  append_bond conn bond
  = Ok (conn ++ [(BeginAtomIdx bond, EndAtomIdx bond, 1%nat)]).
Proof.
  unfold append_bond.
  destruct (orders_index_total (GetBondType bond)) as (n & -> & _). done.
Qed.

Lemma for_each_append_bond (bs : list RBond) :
  ∀ conn, for_each append_bond bs conn
          = Ok (conn ++ ((λ b, (BeginAtomIdx b, EndAtomIdx b, 1%nat)) <$> bs)).
Proof.
  induction bs as [|b bs IH]; intros conn; simpl.
  - by rewrite app_nil_r.
  - rewrite append_bond_one. simpl. rewrite IH. by rewrite <- app_assoc.
Qed.

Lemma for_each_add_atom (mmol : Molecule) rs ns :
  residues mmol = Some rs → names mmol = Some ns →
  ∀ syms k e,
    (k + length syms ≤ length rs)%nat → (k + length syms ≤ length ns)%nat →
    ∃ e', for_each (add_atom_step mmol) (enumerate_from k syms) e = Ok e'
          ∧ Symbol <$> Atoms e' = (Symbol <$> Atoms e) ++ syms
          ∧ Bonds e' = Bonds e ∧ Conformers e' = Conformers e.
Proof.
  intros Hrs Hns. induction syms as [|x syms IH]; intros k e Hk1 Hk2; simpl.
  - exists e. by rewrite app_nil_r.
  - simpl in Hk1, Hk2. unfold subscript. rewrite Hrs, Hns.
    destruct (lookup_lt_is_Some_2 rs k) as [[rn rz] Hr]; [lia|].
    destruct (lookup_lt_is_Some_2 ns k) as [nm Hn]; [lia|].
    rewrite Hr. simpl. rewrite Hn. simpl.
    edestruct (IH (S k)) as (e' & He' & Hs & Hb & Hc); [lia|lia|].
    exists e'. split; [exact He'|]. rewrite Hs, Hb, Hc. simpl.
    rewrite fmap_app. simpl. by rewrite <- app_assoc.
Qed.

Lemma for_each_add_bond (bs : list (nat * nat * nat)) :
  Forall (λ b, (b.2 < 22)%nat) bs →
  ∀ e, ∃ e', for_each add_bond_step bs e = Ok e'
       ∧ Atoms e' = Atoms e ∧ Conformers e' = Conformers e
       ∧ (λ b, (BeginAtomIdx b, EndAtomIdx b, 1%nat)) <$> Bonds e'
         = ((λ b, (BeginAtomIdx b, EndAtomIdx b, 1%nat)) <$> Bonds e)
           ++ ((λ b : nat * nat * nat, (b.1.1, b.1.2, 1%nat)) <$> bs).
Proof.
  induction 1 as [|[[i j] o] bs Ho _ IH]; intros e; simpl.
  - exists e. by rewrite app_nil_r.
  - destruct (orders_getitem_in_range o Ho) as [t ->]. simpl.
    destruct (IH (AddBond e i j t)) as (e' & He' & Ha & Hc & Hb).
    exists e'. split; [exact He'|]. rewrite Ha, Hc, Hb. simpl.
    rewrite fmap_app. simpl. by rewrite <- app_assoc.
Qed.

Lemma set_positions_from (geo : list coords) :
  ∀ k (pre junk : Conformer),
    length pre = k → length junk = length geo →
    foldl (λ c ix, SetAtomPosition c ix.1 ix.2) (pre ++ junk) (enumerate_from k geo)
    = pre ++ geo.
Proof.
  induction geo as [|x geo IH]; intros k pre junk Hpre Hjunk; simpl.
  - destruct junk; [done|discriminate].
  - destruct junk as [|j junk]; [discriminate|]. simpl in Hjunk.
    unfold SetAtomPosition at 2. simpl.
    rewrite insert_app_r_alt by lia.
    replace (k - length pre)%nat with 0%nat by lia. simpl.
    rewrite (cons_middle x pre junk), app_assoc.
    rewrite (IH (S k)); [by rewrite <- app_assoc|rewrite length_app; simpl; lia|lia].
Qed.

(** The conformer built position by position holds the geometry. *)
Lemma set_positions_geometry (geo : list coords) :
  set_positions (Conformer_new (length geo)) geo = geo.
Proof.
  unfold set_positions, enumerate.
  apply (set_positions_from geo 0 [] (Conformer_new (length geo))); [done|].
  apply length_replicate.
Qed.

Section adapter.
Context `{Builders} `{OS}.

(** [to_canonical] on a native object: every bond of the result is the
    index pair of a native bond with the order 1. *)
Lemma RDKitToMolecule_orders_are_one (r : RDKitMolecule) (m' : Molecule) :
  compute RDKitToMolecule_execute (input_of_rdkit r) = Ok m' →
  connectivity m'
  = Some ((λ b, (BeginAtomIdx b, EndAtomIdx b, 1%nat)) <$> Bonds (mol r)).
Proof.
  unfold compute, RDKitToMolecule_execute, input_of_rdkit. simpl.
  case_decide as Hd; simpl; [|discriminate].
  destruct (residues_names (mol r)) as [rs ns].
  rewrite for_each_append_bond. simpl.
  destruct (GetConformer0 (mol r)) as [geo|e]; simpl; [|discriminate].
  intros [= <-]. done.
Qed.

(** With residues and names present, the round trip through the RDKit
    adapter keeps symbols and geometry, and keeps the index pair of every
    bond; the order of every bond comes back as 1. *)
Lemma rdkit_roundtrip_annotated (m : Molecule) rs ns bs :
  residues m = Some rs → names m = Some ns → connectivity m = Some bs →
  (length (symbols m) ≤ length rs)%nat →
  (length (symbols m) ≤ length ns)%nat →
  Forall (λ b, (b.2 < 22)%nat) bs →
  ∃ m', rdkit_roundtrip m = Ok m'
        ∧ symbols m' = symbols m
        ∧ geometry m' = geometry m
        ∧ connectivity m'
          = Some ((λ b : nat * nat * nat, (b.1.1, b.1.2, 1%nat)) <$> bs).
Proof.
  intros Hrs Hns Hbs Hlr Hln Hord.
  unfold rdkit_roundtrip, compute, MoleculeToRDKit_execute, enumerate.
  destruct (for_each_add_atom m rs ns Hrs Hns (symbols m) 0 Mol_empty)
    as (e1 & -> & Hs1 & Hb1 & Hc1); [done|done|]. simpl.
  rewrite Hbs. simpl.
  destruct (for_each_add_bond bs Hord e1) as (e2 & -> & Ha2 & Hc2 & Hb2). simpl.
  rewrite set_positions_geometry.
  unfold RDKitToMolecule_execute, input_of_rdkit. simpl.
  destruct (residues_names _) as [rs' ns'].
  rewrite for_each_append_bond. simpl.
  unfold GetConformer0. simpl. rewrite Hc2, Hc1. simpl.
  eexists. split; [reflexivity|]. simpl.
  rewrite Ha2, Hs1, Hb2, Hb1. done.
Qed.

(** C1. The round trip through the RDKit adapter does not hold for every
    canonical molecule.  For methane without residues [from_canonical]
    raises [TypeError] at [mmol.residues[index]], so nothing comes back;
    for dioxygen, with residues and names, symbols and geometry come back
    and the double bond comes back as a single bond. *)
Theorem rdkit_roundtrip_breaks :
  MoleculeToRDKit_execute methane
    = Raise (Exn TypeError "'NoneType' object is not subscriptable")
  ∧ rdkit_roundtrip methane
    = Raise (Exn TypeError "'NoneType' object is not subscriptable")
  ∧ ∃ m', rdkit_roundtrip dioxygen = Ok m'
          ∧ symbols m' = symbols dioxygen
          ∧ geometry m' = geometry dioxygen
          ∧ connectivity m' = Some [(0, 1, 1)%nat]
          ∧ ¬ same_bonds (connectivity m') (connectivity dioxygen).
Proof.
  split; [reflexivity|]. split; [reflexivity|].
  eexists. split; [reflexivity|]. simpl.
  split; [done|]. split; [done|]. split; [done|].
  unfold same_bonds, bond_set. simpl. intros Heq.
  assert ((0, 1, 2)%nat ∈ ({[ (0, 1, 1)%nat ]} ∪ ∅ : gset (nat * nat * nat)))
    as Hin by (rewrite Heq; set_solver).
  set_solver.
Qed.

(** C6. [to_canonical] on dioxygen as RDKit holds it: the native bond has
    type [DOUBLE], whose order [Bond.orders.index] finds to be 2, and the
    bond of the canonical molecule carries the constant 1. *)
Theorem RDKitToMolecule_drops_bond_order :
  orders_index (GetBondType {| BeginAtomIdx := 0; EndAtomIdx := 1;
                               GetBondType := DOUBLE |}) = Ok 2%nat
  ∧ ∃ m', compute RDKitToMolecule_execute (input_of_rdkit dioxygen_rdkit) = Ok m'
          ∧ connectivity m' = Some [(0, 1, 1)%nat].
Proof.
  split; [reflexivity|]. eexists. split; reflexivity.
Qed.

End adapter.
End RDKitFacts.

(** ** The ParmEd adapter *)

Module ParmedFacts.
Import Schema Input Reader ParmedModel ParmedComponent Adapters Examples.

Section adapter.
Context `{Elements} `{Builders} `{OS}.

(** [from_canonical] hands ParmEd the residue number plus one. *)
Lemma add_atom_step_number (mmol : Molecule) (pmol pmol' : Structure) i symb :
  add_atom_step mmol pmol (i, symb) = Ok pmol' →
  ∃ resname resnum r,
    subscript "list" (Schema.residues mmol) i = Ok (resname, resnum)
    ∧ last (ParmedModel.residues pmol') = Some r
    ∧ res_name r = resname ∧ res_number r = (resnum + 1)%Z.
Proof.
  unfold add_atom_step.
  destruct (subscript "list" (names mmol) i) as [nm|]; simpl; [|by intros [=]].
  destruct (atomic_numbers mmol !! i) as [z|]; simpl; [|by intros [=]].
  destruct (masses_of mmol !! i) as [ms|]; simpl; [|by intros [=]].
  destruct (subscript "list" (Schema.residues mmol) i) as [[rn rz]|]; simpl;
    [|by intros [=]].
  intros [= <-]. exists rn, rz. unfold add_atom. simpl.
  destruct (last (ParmedModel.residues pmol)) as [r|] eqn:Hlast.
  - case_bool_decide as Hj; simpl.
    + exists r. by destruct Hj as [-> ->].
    + eexists. rewrite last_snoc. done.
  - eexists. rewrite last_snoc. done.
Qed.

(** [to_canonical] reports, as the residue number of an atom, the position
    of its residue in the residue list of the structure. *)
Lemma residues_of_idx (pmol : Structure) rs i a k :
  residues_of pmol = Some rs →
  atoms pmol !! i = Some a → residue a = Some k →
  ∃ resname, rs !! i = Some (resname, Z.of_nat k).
Proof.
  unfold residues_of. intros Hrs Ha Hk.
  rewrite mapM_Some in Hrs.
  destruct (Forall2_lookup_l _ _ _ _ _ Hrs Ha) as (r & Hr & Hf).
  rewrite Hk in Hf. simpl in Hf.
  destruct (ParmedModel.residues pmol !! k) as [res|]; simpl in Hf; [|done].
  injection Hf as <-. eauto.
Qed.

(** The first atom of a fresh structure gets the residue at position 0. *)
Lemma add_atom_first (a : Atom) resname resnum :
  ∃ a', atoms (add_atom Structure_empty a resname resnum) !! 0%nat = Some a'
        ∧ residue a' = Some 0%nat.
Proof. eexists. split; reflexivity. Qed.


End adapter.
End ParmedFacts.

(** ** The reader components *)

Module MolReaderFacts.
Import Schema Input Reader MolReader Adapters Examples.

Lemma extension_maps_tags : tags_nonempty _extension_maps.
Proof.
  unfold tags_nonempty, _extension_maps.
  repeat apply Forall_cons_2; try apply Forall_nil_2; simpl;
    repeat (apply map_Forall_insert_2; [reflexivity|]); apply map_Forall_empty.
Qed.

Section resolver.
Context `{Imports}.

Lemma resolve_loop_step toolkit (m : gmap string string) rest file_ext top_ext :
  map_Forall (λ _ v, truthy_str v = true) m →
  (eligible file_ext top_ext (toolkit, m)
   ∧ ∃ d, m !! file_ext = Some d
          ∧ resolve_loop ((toolkit, m) :: rest) file_ext top_ext = Some (toolkit, d))
  ∨ (¬ eligible file_ext top_ext (toolkit, m)
     ∧ resolve_loop ((toolkit, m) :: rest) file_ext top_ext
       = resolve_loop rest file_ext top_ext).
Proof.
  intros Htags. unfold eligible, claims. simpl.
  destruct (m !! file_ext) as [d|] eqn:Hd.
  2:{ right. split; [|done]. intros [[? [=]] _]. }
  rewrite (Htags _ _ Hd).
  destruct top_ext as [t|].
  - unfold truthy_get. destruct (m !! t) as [v|] eqn:Ht.
    + rewrite (Htags _ _ Ht).
      destruct (find_spec toolkit) eqn:Hf.
      * left. split; [|eauto]. split; [eauto|]. split; [done|].
        intros t' [= <-]. eauto.
      * right. split; [|done]. intros (_ & [=] & _).
    + right. split; [|done]. intros (_ & _ & Hc).
      destruct (Hc t eq_refl) as [v Hv]. congruence.
  - destruct (find_spec toolkit) eqn:Hf.
    + left. split; [|eauto]. split; [eauto|]. split; [done|]. intros ? [=].
    + right. split; [|done]. intros (_ & [=] & _).
Qed.

Lemma resolve_loop_spec maps file_ext top_ext :
  tags_nonempty maps →
  match resolve_loop maps file_ext top_ext with
  | Some (toolkit, dtype) => first_eligible maps file_ext top_ext toolkit dtype
  | None => Forall (λ tm, ¬ eligible file_ext top_ext tm) maps
  end.
Proof.
  induction 1 as [|[toolkit m] rest Hm _ IH].
  - simpl. constructor.
  - destruct (resolve_loop_step toolkit m rest file_ext top_ext Hm)
      as [(He & d & Hd & ->)|(Hne & ->)].
    + exists 0%nat, m. split_and!; [done|done|exact He|]. intros j tm Hj. lia.
    + destruct (resolve_loop rest file_ext top_ext) as [[tk d]|].
      * destruct IH as (i & m' & Hi & Hd & He & Hmin).
        exists (S i), m'. split_and!; [done|done|exact He|].
        intros [|j] tm Hj; simpl.
        -- by intros [= <-].
        -- apply Hmin. lia.
      * by constructor.
Qed.

Lemma first_eligible_unique maps file_ext top_ext tk1 d1 tk2 d2 :
  first_eligible maps file_ext top_ext tk1 d1 →
  first_eligible maps file_ext top_ext tk2 d2 →
  tk1 = tk2 ∧ d1 = d2.
Proof.
  intros (i & m1 & Hi & Hd1 & He1 & Hmin1) (j & m2 & Hj & Hd2 & He2 & Hmin2).
  assert (i = j) as ->.
  { destruct (Nat.lt_trichotomy i j) as [Hlt|[->|Hlt]]; [|done|].
    - destruct (Hmin2 i _ Hlt Hi He1).
    - destruct (Hmin1 j _ Hlt Hj He2). }
  rewrite Hi in Hj. injection Hj as -> ->. rewrite Hd1 in Hd2. by injection Hd2.
Qed.

(** C2. Resolution by extension walks the toolkits in the order of the
    table and returns a toolkit with its format tag exactly when it is the
    first one that claims the extension, can be imported and, when there
    is a topology file, claims its extension too.  It raises [ValueError]
    with a message that names the extension exactly when no toolkit of
    the table meets the three conditions. *)
Theorem resolve_by_extension_first_eligible
    (file_ext : string) (top_ext : option string) :
  (∀ toolkit dtype,
     resolve_by_extension file_ext top_ext = Ok (toolkit, dtype)
     ↔ first_eligible _extension_maps file_ext top_ext toolkit dtype)
  ∧ (resolve_by_extension file_ext top_ext
       = Raise (Exn ValueError
           ("Data type not understood for file ext " +:+ file_ext +:+ "."))
     ↔ ∀ tm, tm ∈ _extension_maps → ¬ eligible file_ext top_ext tm)
  ∧ (∀ e, resolve_by_extension file_ext top_ext = Raise e →
          e = Exn ValueError
                ("Data type not understood for file ext " +:+ file_ext +:+ ".")).
Proof.
  pose proof (resolve_loop_spec _extension_maps file_ext top_ext
                extension_maps_tags) as Hspec.
  unfold resolve_by_extension.
  destruct (resolve_loop _extension_maps file_ext top_ext) as [[tk d]|].
  - split; [|split].
    + intros toolkit dtype. split.
      * by intros [= <- <-].
      * intros Hfe.
        by destruct (first_eligible_unique _ _ _ _ _ _ _ Hspec Hfe) as [-> ->].
    + split; [discriminate|]. intros Hnone.
      destruct Hspec as (i & m & Hi & _ & He & _).
      destruct (Hnone (tk, m)); [|done]. by eapply list_elem_of_lookup_2.
    + discriminate.
  - split; [|split].
    + intros toolkit dtype. split; [discriminate|].
      intros (i & m & Hi & _ & He & _).
      rewrite Forall_forall in Hspec.
      destruct (Hspec (toolkit, m)); [|done]. by eapply list_elem_of_lookup_2.
    + split; [|done]. intros _ tm Hin. rewrite Forall_forall in Hspec. auto.
    + by intros e [= <-].
Qed.

End resolver.

(** With ParmEd as the only importable toolkit, [.pdb] goes to ParmEd,
    the second toolkit of the table that claims it. *)
Lemma resolve_by_extension_first_eligible_witness :
  resolve_by_extension (H := only_parmed) ".pdb" None = Ok ("parmed", "pdb")
  ∧ first_eligible (H := only_parmed) _extension_maps ".pdb" None "parmed" "pdb".
Proof.
  split; [vm_compute; reflexivity|].
  destruct (resolve_by_extension_first_eligible (H := only_parmed) ".pdb" None)
    as [Hsel _].
  apply Hsel. vm_compute. reflexivity.
Defined.

Section pipeline.
Context `{Imports} `{Builders} `{OS} `{ParmedModel.Elements}.


(** C5. A file read with neither rdkit nor parmed importable: both imports
    fail, the second failure is caught, a line is printed, and the call
    ends without a [return], so the caller receives [None] and no
    exception. *)
Theorem MolReaderComponent_swallows_missing_toolkits
    (inputs : MolInput) (f : FileInput) :
  find_spec "rdkit" = false → find_spec "parmed" = false →
  data inputs = None → code inputs = None → file inputs = Some f →
  MolReaderComponent_execute inputs
  = ([Print "Neither parmed nor rdkit found. Make sure parmed is installed."],
     Ok None)
  ∧ ¬ raised (MolReaderComponent_execute inputs).2.
Proof.
  intros Hr Hp Hd Hc Hf.
  assert (MolReaderComponent_execute inputs
          = ([Print "Neither parmed nor rdkit found. Make sure parmed is installed."],
             Ok None)) as ->; [|split; [reflexivity|simpl; intros []]].
  unfold MolReaderComponent_execute, call_rdkit, call_parmed, import_component.
  destruct (read_args inputs) as [[o v] k].
  rewrite Hd, Hc, Hf, Hr, Hp. reflexivity.
Qed.

End pipeline.



Lemma MolReaderComponent_swallows_missing_toolkits_witness :
  MolReaderComponent_execute (H := none_installed) (H0 := example_builders)
    (H1 := example_os) (H2 := carbon_only) (file_input "mol.pdb")
  = ([Print "Neither parmed nor rdkit found. Make sure parmed is installed."],
     Ok None)
  ∧ ¬ raised (MolReaderComponent_execute (H := none_installed)
                (H0 := example_builders) (H1 := example_os) (H2 := carbon_only)
                (file_input "mol.pdb")).2.
Proof.
  apply (MolReaderComponent_swallows_missing_toolkits
           (H := none_installed) (H0 := example_builders)
           (H1 := example_os) (H2 := carbon_only)
           (file_input "mol.pdb") {| path := "mol.pdb" |}); reflexivity.
Defined.

End MolReaderFacts.

(** ** Parsing files with RDKit *)

Module RDKitMolFacts.
Import Schema Input Reader RDKitModel RDKitMol Adapters Examples.

Section parse.
Context `{Chem}.


End parse.



End RDKitMolFacts.

(** ** Writing a molecule *)

Module MMMoleculeFacts.
Import Schema Input Reader MMMolecule Adapters Examples.

Lemma raised_bind {A B} (r : result A) (k : A → result B) :
  raised r → raised (r ≫= k).
Proof. by destruct r. Qed.




Section write.
Context `{Imports} `{OS} `{ParmedModel.Elements} `{Builders} `{Serializers}.
Variable maps : list (string * gmap string string).


End write.


End MMMoleculeFacts.


(** ** More on [FileInput] *)

Module InputMore.
Import Input InputOps.

Section facts.
Context `{OS}.

Lemma read_files (self : FileInput) (w : World) :
  files (read self w).2 = files w.
Proof.
  unfold read. destruct (files w !! abs_path self) as [text|]; [|done].
  simpl. by destruct (_content w).
Qed.

Lemma read_missing (self : FileInput) (w : World) :
  files w !! abs_path self = None →
  read self w = (Raise (Exn FileNotFoundError (abs_path self)), w).
Proof. intros Hf. unfold read. by rewrite Hf. Qed.

Lemma read_content_length (self : FileInput) (w : World) :
  length (_content (read self w).2)
  = (length (_content w)
     + length (successes [(read self w).1]))%nat.
Proof.
  unfold read, successes.
  destruct (files w !! abs_path self) as [text|]; simpl; [|lia].
  destruct (_content w) as [|c cs]; simpl; [done|].
  rewrite length_app. simpl. lia.
Qed.

(** X1. [remove] touches one file and nothing else: every other path
    keeps what it held, the shared [_content] list is as before, and a
    second [remove] changes nothing. *)
Theorem remove_touches_one_file (self : FileInput) (w : World) :
  (∀ p, p ≠ abs_path self → files (remove self w) !! p = files w !! p)
  ∧ _content (remove self w) = _content w
  ∧ remove self (remove self w) = remove self w.
Proof.
  split; [|split].
  - intros p Hp. unfold remove. case_decide; simpl; [|done].
    by apply lookup_delete_ne.
  - unfold remove. by case_decide.
  - unfold remove at 1. case_decide as Hf; [|done].
    destruct Hf as [x Hx]. by rewrite InputFacts.remove_absent in Hx.
Qed.

(** X2. [read] never changes the file system, and a [read] that raises
    changes nothing at all.  A [read] that returns appends one entry to
    the shared [_content] list and nothing removes entries: after any
    sequence of reads, writes and removals the list has grown by the
    number of reads that returned. *)
Theorem read_only_grows_content (acts : list action) (w : World) :
  (∀ self, files (read self w).2 = files w)
  ∧ (∀ self, raised (read self w).1 → (read self w).2 = w)
  ∧ length (_content (run acts w).2)
    = (length (_content w) + length (successes (run acts w).1))%nat.
Proof.
  split; [intros self; apply read_files|]. split.
  - intros self. unfold read.
    destruct (files w !! abs_path self) as [text|]; [|done].
    simpl. by destruct (_content w).
  - revert w. induction acts as [|[self|p text|self] acts IH]; intros w; simpl.
    + lia.
    + pose proof (read_content_length self w) as Hlen.
      destruct (read self w) as [r w1]. simpl in Hlen.
      specialize (IH w1). destruct (run acts w1) as [rs w2]. simpl in *.
      rewrite IH, Hlen. unfold successes. destruct r; simpl; lia.
    + by rewrite IH.
    + rewrite IH. f_equal. unfold remove. by case_decide.
Qed.

(** X3. After a with-block that finished without an exception the file
    is gone, so a [read] through the same object raises
    [FileNotFoundError] and leaves everything as it is. *)
Theorem read_after_with_block_fails {A : Type} (self : FileInput)
    (body : FileInput → World → result A * World) (w w1 : World) (a : A) :
  body self w = (Ok a, w1) →
  read self (with_block self body w).2
  = (Raise (Exn FileNotFoundError (abs_path self)), (with_block self body w).2).
Proof.
  intros Hbody. apply read_missing.
  unfold with_block, __enter__. rewrite Hbody. simpl.
  apply InputFacts.remove_absent.
Qed.

(** X4. [FileInput(path=p)] is built exactly when a file is at [p], and
    raises [IOError] naming the path otherwise.  The check holds for the
    moment of construction only: the object reads its file in the world
    that validated it, and raises [FileNotFoundError] once the file has
    been removed. *)
Theorem FileInput_validated_once (p : string) (w : World) :
  (is_Some (files w !! abspath p) ↔ FileInput_init p w = inr {| path := p |})
  ∧ (files w !! abspath p = None ↔
     FileInput_init p w
     = inl (IOError ("Input file " +:+ p +:+ " does not eixst.")))
  ∧ (∀ self, FileInput_init p w = inr self →
       (∃ text, files w !! abs_path self = Some text
                ∧ (_content w = [] → (read self w).1 = Ok text))
       ∧ raised (read self (remove self w)).1).
Proof.
  unfold FileInput_init, _exists.
  split; [|split].
  - case_decide as Hf; split; intros Hx; try done.
  - case_decide as Hf; split; intros Hx; try done.
    + rewrite Hx in Hf. by destruct Hf.
    + by apply eq_None_not_Some.
  - intros self. case_decide as Hf; [|done]. intros [= <-]. split.
    + destruct Hf as [text Htext]. exists text. split; [exact Htext|].
      intros Hnil. unfold read, abs_path. simpl. by rewrite Htext, Hnil.
    + rewrite read_missing; [done|]. apply InputFacts.remove_absent.
Qed.

End facts.

Lemma remove_touches_one_file_witness :
  "/b.txt" ≠ abs_path (H := plain_os) {| path := "/a.txt" |}
  ∧ files (remove (H := plain_os) {| path := "/a.txt" |} world0) !! "/b.txt"
    = Some "beta".
Proof.
  split; [discriminate|].
  destruct (remove_touches_one_file (H := plain_os) {| path := "/a.txt" |} world0)
    as [Hframe _].
  rewrite Hframe; [reflexivity|discriminate].
Defined.

Lemma read_only_grows_content_witness :
  length (_content (run (H := plain_os)
            [DoRead {| path := "/a.txt" |}; DoRemove {| path := "/a.txt" |};
             DoRead {| path := "/a.txt" |}; DoRead {| path := "/b.txt" |}]
            world0).2) = 2%nat.
Proof.
  destruct (read_only_grows_content (H := plain_os)
              [DoRead {| path := "/a.txt" |}; DoRemove {| path := "/a.txt" |};
               DoRead {| path := "/a.txt" |}; DoRead {| path := "/b.txt" |}]
              world0) as (_ & _ & Hlen).
  rewrite Hlen. vm_compute. reflexivity.
Defined.

Lemma read_after_with_block_fails_witness :
  read (H := plain_os) {| path := "/a.txt" |}
    (with_block (H := plain_os) {| path := "/a.txt" |}
       (read (H := plain_os)) world0).2
  = (Raise (Exn FileNotFoundError "/a.txt"),
     (with_block (H := plain_os) {| path := "/a.txt" |}
        (read (H := plain_os)) world0).2).
Proof.
  eapply (read_after_with_block_fails (H := plain_os) {| path := "/a.txt" |}
            (read (H := plain_os)) world0).
  vm_compute. reflexivity.
Defined.

Lemma FileInput_validated_once_witness :
  FileInput_init (H := plain_os) "/a.txt" world0 = inr {| path := "/a.txt" |}
  ∧ FileInput_init (H := plain_os) "/c.txt" world0
    = inl (IOError "Input file /c.txt does not eixst.")
  ∧ (read (H := plain_os) {| path := "/a.txt" |} world0).1 = Ok "alpha".
Proof.
  destruct (FileInput_validated_once (H := plain_os) "/a.txt" world0)
    as (Hok & _ & Hread).
  destruct (FileInput_validated_once (H := plain_os) "/c.txt" world0)
    as (_ & Hmiss & _).
  split; [apply Hok; vm_compute; eauto|].
  split; [apply Hmiss; vm_compute; reflexivity|].
  destruct (Hread {| path := "/a.txt" |}) as [(text & Htext & Hr) _].
  { apply Hok. vm_compute. eauto. }
  rewrite Hr; [|reflexivity]. vm_compute in Htext. congruence.
Defined.

End InputMore.


(** ** More on parsing and editing with RDKit *)

Module RDKitMolMore.
Import Schema Input Reader RDKitModel RDKitMol RDKitEdit Adapters Examples MoreExamples.

Lemma enumerate_from_app {A} (l1 l2 : list A) :
  ∀ k, enumerate_from k (l1 ++ l2)
       = enumerate_from k l1 ++ enumerate_from (k + length l1) l2.
Proof.
  induction l1 as [|x l1 IH]; intros k; simpl.
  - by rewrite Nat.add_0_r.
  - rewrite IH. do 3 f_equal. lia.
Qed.

Lemma fold_sum_app {E A S} (body : S → A → E + S) (l1 l2 : list A) (s : S) :
  fold_sum body (l1 ++ l2) s
  = match fold_sum body l1 s with
    | inr s' => fold_sum body l2 s'
    | inl e => inl e
    end.
Proof.
  revert s. induction l1 as [|x l1 IH]; intros s; simpl; [done|].
  destruct (body s x); [done|apply IH].
Qed.

Lemma remove_step_kept residues RWmol k a :
  kept residues a → remove_step residues RWmol (k, a) = inr RWmol.
Proof. intros (info & Hi & Hn). unfold remove_step. rewrite Hi. by case_decide. Qed.

Lemma remove_step_listed residues RWmol k a :
  listed residues a → remove_step residues RWmol (k, a) = RemoveAtom RWmol k.
Proof. intros (info & Hi & Hn). unfold remove_step. rewrite Hi. by case_decide. Qed.

Lemma fold_kept residues (atoms : list Atom) :
  Forall (kept residues) atoms →
  ∀ k RWmol, fold_sum (remove_step residues) (enumerate_from k atoms) RWmol
             = inr RWmol.
Proof.
  induction 1 as [|a atoms Ha _ IH]; intros k RWmol;
    cbn [enumerate_from fold_sum]; [done|].
  rewrite (remove_step_kept _ _ _ _ Ha). apply IH.
Qed.

(** The molecule being edited never grows, and shrinks with every listed
    atom the loop has passed. *)
Lemma fold_shrinks residues (atoms : list Atom) :
  ∀ k RWmol RWmol',
    fold_sum (remove_step residues) (enumerate_from k atoms) RWmol = inr RWmol' →
    (length (Atoms RWmol') ≤ length (Atoms RWmol))%nat
    ∧ (Exists (listed residues) atoms →
       (length (Atoms RWmol') < length (Atoms RWmol))%nat).
Proof.
  induction atoms as [|a atoms IH]; intros k RWmol RWmol';
    cbn [enumerate_from fold_sum].
  - intros [= <-]. split; [done|]. by intros ?%Exists_nil.
  - unfold remove_step at 1.
    destruct (MonomerInfo a) as [info|] eqn:Hinfo; [|done].
    case_decide as Hin.
    + unfold RemoveAtom. case_decide as Hk; [|done].
      intros Hrest. apply IH in Hrest as [Hle _]. simpl in Hle.
      rewrite length_delete in Hle by (by apply lookup_lt_is_Some_2).
      split; [lia|intros _; lia].
    + intros Hrest. apply IH in Hrest as [Hle Hlt]. split; [done|].
      intros [(info' & Hi' & Hl')|Hex]%Exists_cons; [|by apply Hlt].
      rewrite Hinfo in Hi'. by injection Hi' as <-.
Qed.

(** X5. [remove_residues] is right while at most one atom is listed: with
    no listed atom the molecule comes back unchanged, and with one listed
    atom the result is the molecule without it. *)
Theorem remove_residues_one_match (mol : Mol) (residues : list string) :
  (Forall (kept residues) (Atoms mol) → remove_residues mol residues = inr mol)
  ∧ (∀ pre a post,
       Atoms mol = pre ++ a :: post →
       Forall (kept residues) pre → listed residues a →
       Forall (kept residues) post →
       remove_residues mol residues = RemoveAtom mol (length pre)
       ∧ ∃ mol', remove_residues mol residues = inr mol'
                 ∧ Atoms mol' = pre ++ post).
Proof.
  unfold remove_residues, enumerate. split.
  - intros Hk. by apply fold_kept.
  - intros pre a post Hatoms Hpre Ha Hpost.
    assert (fold_sum (remove_step residues) (enumerate_from 0 (Atoms mol)) mol
            = RemoveAtom mol (length pre)) as Heq.
    { rewrite Hatoms at 1. rewrite enumerate_from_app, fold_sum_app.
      rewrite (fold_kept _ _ Hpre). cbn [enumerate_from fold_sum Nat.add].
      rewrite (remove_step_listed _ _ _ _ Ha).
      destruct (RemoveAtom mol (length pre)) as [e|m1]; [done|].
      by apply fold_kept. }
    split; [exact Heq|]. rewrite Heq. unfold RemoveAtom.
    case_decide as Hlen.
    + eexists. split; [reflexivity|]. simpl. rewrite Hatoms.
      by rewrite delete_middle.
    + rewrite Hatoms, length_app in Hlen. simpl in Hlen. lia.
Qed.

(** X6. [remove_residues] removes by the indices of the molecule it was
    given while the molecule it edits shrinks: when the last atom is
    listed and an earlier atom is listed too, the call raises and returns
    no molecule. *)
Theorem remove_residues_shifted_index (mol : Mol) (residues : list string)
    (pre : list Atom) (last_atom : Atom) :
  Atoms mol = pre ++ [last_atom] →
  listed residues last_atom →
  Exists (listed residues) pre →
  ∃ e, remove_residues mol residues = inl e.
Proof.
  intros Hatoms Hlast Hex. unfold remove_residues, enumerate.
  rewrite Hatoms, enumerate_from_app, fold_sum_app.
  destruct (fold_sum (remove_step residues) (enumerate_from 0 pre) mol)
    as [e|m1] eqn:Hfold; [eauto|].
  apply fold_shrinks in Hfold as [_ Hlt]. specialize (Hlt Hex).
  cbn [enumerate_from fold_sum Nat.add]. rewrite (remove_step_listed _ _ _ _ Hlast).
  unfold RemoveAtom. case_decide as Hk; [|eauto].
  rewrite Hatoms, length_app in Hlt. simpl in Hlt. lia.
Qed.

Section parse.
Context `{Chem}.

(** X7. [build_mol] on an SDF file goes by the number of records: no
    record raises [IndexError], one record is returned, more raise
    [ValueError]. *)
Theorem build_mol_sdf_by_record_count (inputs : MolInput) (f : FileInput) :
  file inputs = Some f → code inputs = None →
  build_mol inputs "sdf"
  = match file_records (path f) with
    | [] => Raise (Exn IndexError "index out of range")
    | [m] => Ok {| mol := m; dtype := "rdkit" |}
    | _ :: _ :: _ =>
        Raise (Exn ValueError "SDF file should contain a single molecule")
    end.
Proof.
  intros Hf Hc. unfold build_mol, read_file, SDMolSupplier. rewrite Hf, Hc. simpl.
  destruct (file_records (path f)) as [|m [|m' ms]]; simpl;
    repeat case_decide; simpl in *; try done; lia.
Qed.

(** X8. [build_mol] with a file parses the tags pdb, mol, mol2, tpl and
    sdf and raises [NameError] for every other one.  Of the tags the
    extension table gives to rdkit, smiles is the one it does not parse,
    so a [.smiles] file resolved through the table ends in [NameError]. *)
Theorem build_mol_unhandled_tag (inputs : MolInput) (f : FileInput) (dtype : string) :
  file inputs = Some f →
  dtype ∉ ["pdb"; "mol"; "mol2"; "tpl"; "sdf"] →
  build_mol inputs dtype = Raise (Exn NameError "name 'ext' is not defined")
  ∧ (∀ m k, ("rdkit", m) ∈ MolReader._extension_maps →
            m !! k = Some dtype → k = ".smiles" ∧ dtype = "smiles").
Proof.
  intros Hf Hd. rewrite !not_elem_of_cons in Hd.
  destruct Hd as (H1 & H2 & H3 & H4 & H5 & _). split.
  - unfold build_mol, read_file. rewrite Hf. simpl.
    repeat case_decide; done.
  - intros m k Hin Hk. unfold MolReader._extension_maps in Hin.
    rewrite !elem_of_cons in Hin.
    destruct Hin as [Heq|[Heq|[Heq|Hnil]]];
      [discriminate| |discriminate|by apply elem_of_nil in Hnil].
    injection Heq as ->. simpl in Hk.
    repeat (apply lookup_insert_Some in Hk as [[<- <-]|[_ Hk]]; [done|]).
    by rewrite lookup_empty in Hk.
Qed.

End parse.

(** Every atom of a concrete list carries residue info and none is in a
    concrete one-element list of residues. *)
Local Ltac all_kept :=
  repeat (apply Forall_cons_2;
          [eexists; split;
           [reflexivity|rewrite list_elem_of_singleton; discriminate]|]);
  apply Forall_nil_2.

Lemma remove_residues_one_match_witness :
  remove_residues record1 ["HOH"] = inr record1
  ∧ ∃ mol', remove_residues record2' ["HOH"] = inr mol'
            ∧ Symbol <$> Atoms mol' = ["O"; "O"].
Proof.
  destruct (remove_residues_one_match record1 ["HOH"]) as [Hnone _].
  destruct (remove_residues_one_match record2' ["HOH"]) as [_ Hone].
  split.
  - apply Hnone. simpl. all_kept.
  - destruct (Hone (Atoms record1) water_atom []) as (_ & mol' & Hr & Ha).
    + reflexivity.
    + simpl. all_kept.
    + eexists. split; [reflexivity|]. by apply list_elem_of_singleton.
    + apply Forall_nil_2.
    + exists mol'. split; [exact Hr|]. rewrite Ha, app_nil_r. reflexivity.
Defined.

Lemma remove_residues_shifted_index_witness :
  ∃ e, remove_residues two_waters ["HOH"] = inl e.
Proof.
  apply (remove_residues_shifted_index two_waters ["HOH"] [water_atom] water_atom).
  - reflexivity.
  - eexists. split; [reflexivity|]. by apply list_elem_of_singleton.
  - apply Exists_cons_hd. eexists. split; [reflexivity|].
    by apply list_elem_of_singleton.
Defined.

Lemma build_mol_sdf_by_record_count_witness :
  build_mol (H := two_record_files) (file_input "two.sdf") "sdf"
  = Raise (Exn ValueError "SDF file should contain a single molecule")
  ∧ build_mol (H := two_record_files) (file_input "mol.pdb") "sdf"
    = Raise (Exn IndexError "index out of range").
Proof.
  split.
  - rewrite (build_mol_sdf_by_record_count (H := two_record_files)
               (file_input "two.sdf") {| path := "two.sdf" |});
      reflexivity.
  - rewrite (build_mol_sdf_by_record_count (H := two_record_files)
               (file_input "mol.pdb") {| path := "mol.pdb" |});
      reflexivity.
Defined.

Lemma build_mol_unhandled_tag_witness :
  build_mol (H := two_record_files) (file_input "mol.pdb") ".pdb"
  = Raise (Exn NameError "name 'ext' is not defined")
  ∧ build_mol (H := two_record_files) (file_input "mol.pdb") "smiles"
    = Raise (Exn NameError "name 'ext' is not defined").
Proof.
  split.
  - apply (build_mol_unhandled_tag (H := two_record_files)
             (file_input "mol.pdb") {| path := "mol.pdb" |} ".pdb");
      [reflexivity|].
    rewrite !not_elem_of_cons. split_and!; try discriminate. apply not_elem_of_nil.
  - apply (build_mol_unhandled_tag (H := two_record_files)
             (file_input "mol.pdb") {| path := "mol.pdb" |} "smiles");
      [reflexivity|].
    rewrite !not_elem_of_cons. split_and!; try discriminate. apply not_elem_of_nil.
Defined.

End RDKitMolMore.


(** ** More on the RDKit adapter *)

Module RDKitMore.
Import Schema Input Reader RDKitModel RDKitComponent RDKitImage Adapters.
Import Examples MoreExamples.

Lemma string_length_app (s1 s2 : string) :
  String.length (s1 +:+ s2) = (String.length s1 + String.length s2)%nat.
Proof. induction s1 as [|c s1 IH]; simpl; [done|by rewrite IH]. Qed.







Section adapter.
Context `{Builders} `{OS}.


End adapter.

(** X11. [pad_name] gives a name of four characters exactly for names of
    one to four characters and leaves every other name as it is; padding
    a padded name changes nothing, so the names of a second round trip
    are those of the first. *)
Theorem pad_name_four_columns (name : string) :
  (String.length (pad_name name) = 4%nat
   ↔ (1 ≤ String.length name ≤ 4)%nat)
  ∧ (¬ (1 ≤ String.length name ≤ 3)%nat → pad_name name = name)
  ∧ pad_name (pad_name name) = pad_name name.
Proof.
  assert (∀ s, (1 ≤ String.length s ≤ 4)%nat → String.length (pad_name s) = 4%nat)
    as Hfour.
  { intros s Hs. unfold pad_name. repeat case_decide;
      rewrite ?string_length_app; simpl; lia. }
  assert (∀ s, ¬ (1 ≤ String.length s ≤ 3)%nat → pad_name s = s) as Hsame.
  { intros s Hs. unfold pad_name. repeat case_decide; try done; lia. }
  split; [|split].
  - split; [|apply Hfour]. intros Hlen.
    destruct (decide (1 ≤ String.length name ≤ 3)%nat) as [|Hn]; [lia|].
    rewrite (Hsame name Hn) in Hlen. lia.
  - apply Hsame.
  - destruct (decide (1 ≤ String.length name ≤ 4)%nat) as [Hin|Hout].
    + apply Hsame. rewrite (Hfour name Hin). lia.
    + rewrite (Hsame name) by lia. apply Hsame. lia.
Qed.

End RDKitMore.


(** ** Errors and edges of the RDKit adapter *)

Module RDKitEdges.
Import Schema Input Reader RDKitModel RDKitComponent RDKitImage Adapters.
Import ReaderArgs Examples MoreExamples.




Section adapter.
Context `{Builders} `{OS}.

(** X13. Every per-atom array of a molecule [RDKitToMolecule.execute]
    builds from a native RDKit object has the length of the atom list.  Residues and
    names are present together, when every atom carries residue info, and
    absent together, when some atom carries none.  There is one bond per
    native bond, and no masses and no identifiers. *)
Theorem RDKitToMolecule_per_atom_lengths (r : RDKitMolecule) (m' : Molecule) :
  compute RDKitToMolecule_execute (input_of_rdkit r) = Ok m' →
  length (symbols m') = length (Atoms (mol r))
  ∧ (∃ c, connectivity m' = Some c ∧ length c = length (Bonds (mol r)))
  ∧ masses m' = None ∧ identifiers m' = None
  ∧ match residues m', names m' with
    | Some rs, Some ns =>
        length rs = length (Atoms (mol r)) ∧ length ns = length (Atoms (mol r))
        ∧ Forall (λ a, is_Some (MonomerInfo a)) (Atoms (mol r))
    | None, None => Exists (λ a, MonomerInfo a = None) (Atoms (mol r))
    | _, _ => False
    end.
Proof.
  unfold compute, RDKitToMolecule_execute, input_of_rdkit. simpl.
  case_decide as Hd; simpl; [|by intros [=]].
  destruct (residues_names (mol r)) as [rs ns] eqn:Hrn.
  rewrite RDKitFacts.for_each_append_bond. simpl.
  destruct (GetConformer0 (mol r)) as [geo|e]; simpl; [|by intros [=]].
  intros [= <-]. simpl. unfold residues_names in Hrn.
  destruct (mapM MonomerInfo (Atoms (mol r))) as [infos|] eqn:Hm;
    injection Hrn as <- <-; rewrite !length_fmap.
  - split; [done|]. split; [eexists; split; [done|by rewrite length_fmap]|].
    split; [done|]. split; [done|].
    pose proof (length_mapM _ _ _ Hm) as Hlen.
    split; [done|]. split; [done|].
    apply (mapM_is_Some_1 MonomerInfo). by rewrite Hm.
  - split; [done|]. split; [eexists; split; [done|by rewrite length_fmap]|].
    split; [done|]. split; [done|]. by apply mapM_None.
Qed.


End adapter.




Lemma pad_name_four_columns_witness :
  String.length (pad_name "CA") = 4%nat ∧ pad_name "HG11X" = "HG11X".
Proof.
  split.
  - apply (RDKitMore.pad_name_four_columns "CA"); simpl; lia.
  - apply (RDKitMore.pad_name_four_columns "HG11X"); simpl; lia.
Defined.


Lemma RDKitToMolecule_per_atom_lengths_witness :
  ∃ m', compute (RDKitToMolecule_execute (H := example_builders) (H0 := example_os))
          (input_of_rdkit dioxygen_rdkit) = Ok m'
        ∧ length (symbols m') = 2%nat.
Proof.
  eexists. split; [reflexivity|].
  eapply (RDKitToMolecule_per_atom_lengths (H := example_builders)
            (H0 := example_os) dioxygen_rdkit).
  reflexivity.
Defined.


End RDKitEdges.


(** ** More on the reader components *)

Module MolReaderMore.
Import Schema Input Reader MolReader Adapters ReaderArgs ReaderTrace.
Import Examples MoreExamples.

Section pipeline.
Context `{Imports} `{Builders} `{OS} `{ParmedModel.Elements}.

(** X15. Data of a dtype other than rdkit and parmed are refused before
    any adapter runs, whatever else the input holds.  For qcelemental
    data the refusal is a [NameError], because the branch reads a name
    the function does not have; for every other dtype it is a
    [NotImplementedError] that names the dtype. *)
Theorem MolReaderComponent_refuses_other_data (inputs : MolInput)
    (d : ToolkitMolecule) :
  data inputs = Some d → tk_dtype d ≠ "rdkit" → tk_dtype d ≠ "parmed" →
  MolReaderComponent_execute inputs
  = ([], Raise (if decide (tk_dtype d = "qcelemental")
                then Exn NameError "name 'data' is not defined"
                else Exn NotImplementedError
                       ("Data type not yet supported: " +:+ tk_dtype d +:+ "."))).
Proof.
  intros Hd Hr Hp. unfold MolReaderComponent_execute.
  destruct (read_args inputs) as [[o v] k]. rewrite Hd.
  repeat case_decide; done.
Qed.

(** X16. Only a file read falls back to ParmEd.  For a code, and for data
    tagged rdkit, the result is the one of the RDKit adapter: ParmEd is
    not invoked, and a missing rdkit is reported as
    [ModuleNotFoundError]. *)
Theorem MolReaderComponent_no_fallback_for_codes (inputs : MolInput) :
  (data inputs = None ∧ is_Some (code inputs))
  ∨ (∃ d, data inputs = Some d ∧ tk_dtype d = "rdkit") →
  ¬ invokes_parmed (MolReaderComponent_execute inputs).1
  ∧ (find_spec "rdkit" = false →
     MolReaderComponent_execute inputs
     = ([], Raise (Exn ModuleNotFoundError "Make sure rdkit is installed.")))
  ∧ (find_spec "rdkit" = true →
     MolReaderComponent_execute inputs
     = ([Invoke "RDKitToMolecule"],
        out ← compute RDKitComponent.RDKitToMolecule_execute inputs;
        Ok (Some (true, out)))).
Proof.
  intros Hsrc.
  assert (MolReaderComponent_execute inputs = call_rdkit inputs) as ->.
  { unfold MolReaderComponent_execute. destruct (read_args inputs) as [[o v] k].
    destruct Hsrc as [[-> [c ->]]|(d & -> & Hd)]; [done|].
    rewrite Hd. by repeat case_decide. }
  unfold call_rdkit, import_component, invokes_parmed.
  destruct (find_spec "rdkit"); simpl; split_and!; try done.
  - intros [[=]|Hin%elem_of_nil]%elem_of_cons. done.
  - by intros Hin%elem_of_nil.
Qed.

(** X17. A file read tries RDKit first.  When the RDKit adapter returns,
    that is the result and ParmEd is not invoked.  When it raises, for
    whatever reason, its exception is dropped and the outcome is ParmEd's:
    so every exception a file read raises is the one ParmEd raised, it is
    never an [ImportError], and the call returns [None] exactly when the
    exception ParmEd raised is an [ImportError]. *)
Theorem MolReaderComponent_file_fallback (inputs : MolInput) (f : FileInput) :
  data inputs = None → code inputs = None → file inputs = Some f →
  (∀ r, (call_rdkit inputs).2 = Ok r →
        MolReaderComponent_execute inputs = call_rdkit inputs
        ∧ ¬ invokes_parmed (MolReaderComponent_execute inputs).1)
  ∧ (∀ e, (MolReaderComponent_execute inputs).2 = Raise e →
          raised (call_rdkit inputs).2
          ∧ (call_parmed inputs).2 = Raise e ∧ is_ImportError e = false)
  ∧ ((MolReaderComponent_execute inputs).2 = Ok None ↔
     raised (call_rdkit inputs).2
     ∧ ∃ e, (call_parmed inputs).2 = Raise e ∧ is_ImportError e = true).
Proof.
  intros Hd Hc Hf. unfold MolReaderComponent_execute.
  destruct (read_args inputs) as [[o v] k]. rewrite Hd, Hc, Hf.
  assert (∀ r, (call_rdkit inputs).2 = Ok r →
               ¬ invokes_parmed (call_rdkit inputs).1 ∧ r ≠ None) as Hrd.
  { unfold call_rdkit, invokes_parmed.
    destruct (import_component "rdkit"); simpl; [|done].
    destruct (compute _ inputs); simpl; [|done]. intros r [= <-]. split; [|done].
    intros [[=]|Hin%elem_of_nil]%elem_of_cons. done. }
  assert (∀ r, (call_parmed inputs).2 = Ok r → r ≠ None) as Hpm.
  { unfold call_parmed. destruct (import_component "parmed"); simpl; [|done].
    destruct (compute _ inputs); simpl; [|done]. by intros r [= <-]. }
  destruct (call_rdkit inputs) as [t1 [r1|e1]] eqn:Hcr; simpl in *.
  - split_and!.
    + intros r _. split; [done|]. by apply (Hrd r1).
    + by intros e [=].
    + split; [|by intros [[] _]]. intros [= ->]. by destruct (Hrd None).
  - destruct (call_parmed inputs) as [t2 [r2|e2]] eqn:Hcp; simpl in *.
    + split_and!; [by intros r [=]|by intros e [=]|].
      split; [|by intros (_ & e & [=] & _)]. intros [= ->]. by destruct (Hpm None).
    + destruct (is_ImportError e2) eqn:Himp; simpl.
      * split_and!; [by intros r [=]|by intros e [=]|]. split; [|done].
        intros _. split; [done|]. by exists e2.
      * split_and!; [by intros r [=]|by intros e [= <-]|].
        split; [by intros [=]|]. intros (_ & e & [= <-] & Hi). congruence.
Qed.


(** X19. The files of the qcelemental map cannot be read through
    [TkMolReaderComponent]: for each of its extensions the call raises
    [ValueError], whether qcelemental is installed or not and with or
    without a topology file. *)
Theorem TkMolReaderComponent_refuses_qcelemental_files
    (inputs : MolInput) (f : FileInput) :
  file inputs = Some f → ext f ∈ qcelemental_exts →
  ∃ msg, TkMolReaderComponent_execute inputs = Raise (Exn ValueError msg).
Proof.
  intros Hf Hext. unfold TkMolReaderComponent_execute. rewrite Hf.
  unfold resolve_by_extension.
  pose proof (MolReaderFacts.resolve_loop_spec _extension_maps (ext f)
                (ext <$> top_file inputs) MolReaderFacts.extension_maps_tags)
    as Hspec.
  destruct (resolve_loop _extension_maps (ext f) (ext <$> top_file inputs))
    as [[tk tag]|]; simpl; [|eauto].
  destruct Hspec as (i & m & Hi & Htag & _).
  assert (tk = "qcelemental") as ->; [|by repeat case_decide; eauto].
  unfold qcelemental_exts in Hext. rewrite !elem_of_cons in Hext.
  destruct i as [|[|[|i]]]; simpl in Hi; [by injection Hi| | |done];
    injection Hi as <- <-; exfalso;
    destruct Hext as [Hx|[Hx|[Hx|[Hx|[Hx|[Hx|Hx]]]]]];
    try (by apply elem_of_nil in Hx); rewrite Hx in Htag;
    repeat (apply lookup_insert_Some in Htag as [[[=] _]|[_ Htag]]);
    by rewrite lookup_empty in Htag.
Qed.

End pipeline.
End MolReaderMore.


(** ** More on the ParmEd adapter *)

Module ParmedMore.
Import Schema Input Reader ParmedModel ParmedComponent ParmedInv Adapters.
Import Examples MoreExamples.





Section adapter.
Context `{Elements} `{Builders} `{OS}.







End adapter.
End ParmedMore.


(** ** More on writing a molecule *)

Module MMMoleculeMore.
Import Schema Input Reader MMMolecule MMMoleculeOps Adapters ReaderTrace.
Import Examples MoreExamples.

Lemma first_claiming_none (maps : list (string * gmap string string)) key :
  Forall (λ tm, tm.2 !! key = None) maps → first_claiming maps key = None.
Proof.
  intros Hall. unfold first_claiming.
  destruct (list_find _ maps) as [[i tm]|] eqn:Hfind; [|done].
  apply list_find_Some in Hfind as (Hi & [v Hv] & _).
  rewrite Forall_forall in Hall.
  rewrite (Hall tm) in Hv; [done|]. by eapply list_elem_of_lookup_2.
Qed.

Lemma extension_maps_keyed : keyed_by_extension MolReader._extension_maps.
Proof.
  unfold keyed_by_extension, MolReader._extension_maps.
  repeat apply Forall_cons_2; try apply Forall_nil_2; simpl;
    intros k [v Hv];
    repeat (apply lookup_insert_Some in Hv as [[<- _]|[_ Hv]];
            [by eexists|]);
    by rewrite lookup_empty in Hv.
Qed.

Section write.
Context `{Imports} `{OS} `{ParmedModel.Elements} `{Builders} `{Serializers}.
Variable maps : list (string * gmap string string).

(** X23. [to_file] finds its toolkit by looking the key up in the maps of
    the extension table: the extension of the file name when no dtype is
    given, the dtype itself otherwise.  When no map has the key it raises
    [UnboundLocalError].  The keys of the table are extensions, so a
    dtype that is a format tag, without the dot, always ends that way. *)
Theorem to_file_unbound_toolkit (self : Molecule) (filename : string) :
  (Forall (λ tm, tm.2 !! suffix filename = None) maps →
   to_file maps self filename None
   = Raise (Exn UnboundLocalError
              "local variable 'toolkit' referenced before assignment"))
  ∧ (∀ dtype, keyed_by_extension maps →
       truthy_str dtype = true → ¬ is_extension dtype →
       to_file maps self filename (Some dtype)
       = Raise (Exn UnboundLocalError
                  "local variable 'toolkit' referenced before assignment")).
Proof.
  unfold to_file, route. split.
  - intros Hall. by rewrite (first_claiming_none maps _ Hall).
  - intros dtype Hkeys -> Hne.
    rewrite (first_claiming_none maps dtype); [done|].
    eapply Forall_impl; [exact Hkeys|]. intros tm Hk. simpl in *.
    apply eq_None_not_Some. intros Hsome. by apply Hne, Hk.
Qed.

(** X24. Writing has no fallback.  [to_file] takes the first toolkit of
    the table whose map has the key, installed or not; when that toolkit
    is rdkit or parmed and cannot be imported the call raises
    [ModuleNotFoundError], even if a later toolkit of the table has the
    key as well. *)
Theorem to_file_needs_first_toolkit (self : Molecule) (filename : string)
    (dtype : option string) (toolkit tag : string) :
  route maps filename dtype = Some (toolkit, tag) →
  toolkit ∈ ["rdkit"; "parmed"] →
  find_spec toolkit = false →
  to_file maps self filename dtype
  = Raise (Exn ModuleNotFoundError ("Make sure " +:+ toolkit +:+ " is installed.")).
Proof.
  intros Hroute Htk Hf. unfold to_file. rewrite Hroute.
  rewrite !elem_of_cons in Htk.
  destruct Htk as [->|[->|Hnil]]; [| |by apply elem_of_nil in Hnil];
    repeat case_decide; try done;
    unfold MolReader.import_component; by rewrite Hf.
Qed.

(** X25. What [to_file] writes through RDKit is the native molecule
    [to_data] returns: the call is the write of that molecule with the
    writer of the tag.  [to_data] knows no dtype but rdkit. *)
Theorem to_file_writes_to_data (self : Molecule) (filename : string)
    (dtype : option string) (tag : string) (native : RDKitModel.Mol) :
  route maps filename dtype = Some ("rdkit", tag) →
  to_data self "rdkit" = Ok native →
  to_file maps self filename dtype
  = (writer ← rdkit_writer tag; writer_write writer filename native)
  ∧ (∀ d, d ≠ "rdkit" →
          to_data self d
          = Raise (Exn NotImplementedError ("Data type " +:+ d +:+ " not available."))).
Proof.
  intros Hroute Hdata. split.
  - unfold to_file, rdkit_write. rewrite Hroute. unfold to_data in Hdata.
    repeat case_decide; try done.
    destruct (MolReader.import_component "rdkit"); simpl in *; [|done].
    destruct (compute RDKitComponent.MoleculeToRDKit_execute self) as [r|e];
      simpl in *; [|done].
    by injection Hdata as <-.
  - intros d Hd. unfold to_data. by case_decide.
Qed.

End write.

Section table.
Context `{Imports} `{OS} `{ParmedModel.Elements} `{Builders} `{Serializers}.


End table.


Lemma to_file_unbound_toolkit_witness :
  to_file (H := all_installed) (H0 := example_os) (H1 := carbon_only)
    (H3 := accepting) MolReader._extension_maps dioxygen "data.unknownext" None
  = Raise (Exn UnboundLocalError
             "local variable 'toolkit' referenced before assignment")
  ∧ to_file (H := all_installed) (H0 := example_os) (H1 := carbon_only)
      (H3 := accepting) MolReader._extension_maps dioxygen "mol.pdb" (Some "pdb")
    = Raise (Exn UnboundLocalError
               "local variable 'toolkit' referenced before assignment").
Proof.
  destruct (to_file_unbound_toolkit (H := all_installed) (H0 := example_os)
              (H1 := carbon_only) (H3 := accepting)
              MolReader._extension_maps dioxygen "data.unknownext")
    as [Hext _].
  destruct (to_file_unbound_toolkit (H := all_installed) (H0 := example_os)
              (H1 := carbon_only) (H3 := accepting)
              MolReader._extension_maps dioxygen "mol.pdb")
    as [_ Htag].
  split.
  - apply Hext. repeat apply Forall_cons_2; try apply Forall_nil_2;
      vm_compute; reflexivity.
  - apply Htag; [apply extension_maps_keyed|reflexivity|].
    intros [rest Hrest]. discriminate.
Defined.

Lemma to_file_needs_first_toolkit_witness :
  MolReader.resolve_by_extension (H := only_parmed) ".pdb" None
  = Ok ("parmed", "pdb")
  ∧ to_file (H := only_parmed) (H0 := example_os) (H1 := carbon_only)
      (H3 := accepting) MolReader._extension_maps alanine "mol.pdb" None
    = Raise (Exn ModuleNotFoundError "Make sure rdkit is installed.").
Proof.
  split; [vm_compute; reflexivity|].
  apply (to_file_needs_first_toolkit (H := only_parmed) (H0 := example_os)
           (H1 := carbon_only) (H3 := accepting)
           MolReader._extension_maps alanine "mol.pdb" None "rdkit" "pdb").
  - vm_compute. reflexivity.
  - apply elem_of_cons. by left.
  - reflexivity.
Defined.

Lemma to_file_writes_to_data_witness :
  ∃ native,
    to_data (H := all_installed) dioxygen "rdkit" = Ok native
    ∧ to_file (H := all_installed) (H0 := example_os) (H1 := carbon_only)
        (H3 := accepting) MolReader._extension_maps dioxygen "mol.pdb" None
      = writer_write (Serializers := accepting) "PDBWriter" "mol.pdb" native.
Proof.
  eexists. split; [reflexivity|].
  edestruct (to_file_writes_to_data (H := all_installed) (H0 := example_os)
               (H1 := carbon_only) (H3 := accepting)
               MolReader._extension_maps dioxygen "mol.pdb" None "pdb")
    as [Hto _]; [vm_compute; reflexivity|reflexivity|].
  rewrite Hto. reflexivity.
Defined.

End MMMoleculeMore.

(** ** Witnesses for the reader components and the ParmEd adapter *)

Module MoreWitnesses.
Import Schema Input Reader MolReader Adapters ReaderArgs ReaderTrace.
Import Examples MoreExamples.

Lemma MolReaderComponent_refuses_other_data_witness :
  MolReaderComponent_execute (H := all_installed) (H0 := example_builders)
    (H1 := example_os) (H2 := carbon_only) qcel_data
  = ([], Raise (Exn NameError "name 'data' is not defined")).
Proof.
  rewrite (MolReaderMore.MolReaderComponent_refuses_other_data
             (H := all_installed) (H0 := example_builders)
             (H1 := example_os) (H2 := carbon_only) qcel_data
             {| tk_mol := NativeOther; tk_dtype := "qcelemental" |});
    [reflexivity|reflexivity|discriminate|discriminate].
Defined.

Lemma MolReaderComponent_no_fallback_for_codes_witness :
  MolReaderComponent_execute (H := only_parmed) (H0 := example_builders)
    (H1 := example_os) (H2 := carbon_only) code_and_file
  = ([], Raise (Exn ModuleNotFoundError "Make sure rdkit is installed.")).
Proof.
  destruct (MolReaderMore.MolReaderComponent_no_fallback_for_codes
              (H := only_parmed) (H0 := example_builders)
              (H1 := example_os) (H2 := carbon_only) code_and_file)
    as (_ & Hmissing & _).
  - left. split; [reflexivity|eexists; reflexivity].
  - apply Hmissing. reflexivity.
Defined.

Lemma MolReaderComponent_file_fallback_witness :
  (MolReaderComponent_execute (H := all_installed) (H0 := example_builders)
     (H1 := example_os) (H2 := carbon_only) (file_input "mol.pdb")).2
  = Raise (Exn ValueError "no parser")
  ∧ (call_parmed (H := all_installed) (H0 := example_builders)
       (H1 := example_os) (H2 := carbon_only) (file_input "mol.pdb")).2
    = Raise (Exn ValueError "no parser").
Proof.
  destruct (MolReaderMore.MolReaderComponent_file_fallback
              (H := all_installed) (H0 := example_builders)
              (H1 := example_os) (H2 := carbon_only)
              (file_input "mol.pdb") {| path := "mol.pdb" |})
    as (_ & Herr & _); [reflexivity|reflexivity|reflexivity|].
  split; [vm_compute; reflexivity|].
  apply Herr. vm_compute. reflexivity.
Defined.


Lemma TkMolReaderComponent_refuses_qcelemental_files_witness :
  ∃ msg, TkMolReaderComponent_execute (H := all_installed)
           (H0 := example_builders) (H1 := xyz_os) (file_input "water.xyz")
         = Raise (Exn ValueError msg).
Proof.
  apply (MolReaderMore.TkMolReaderComponent_refuses_qcelemental_files
           (H := all_installed) (H0 := example_builders) (H1 := xyz_os)
           (file_input "water.xyz") {| path := "water.xyz" |}).
  - reflexivity.
  - unfold qcelemental_exts. rewrite !elem_of_cons. right. right. by left.
Defined.




End MoreWitnesses.
